(** * PCA9685 register-access driver (src/src/pca9685lib.c)

    A shallow embedding of the driver: every C function of the file becomes
    a state-passing function over a [World] made of the bus transport's own
    state, the log of the transport calls issued so far, and the caller's
    16-bit output cells.  The bus transport (us-i2c.h) and the constants of
    pca9685lib.h are not part of the sources; both are parameters of the
    development. *)

From Stdlib Require Import ZArith List Lia Bool.
From stdpp Require Import base gmap.

Local Open Scope Z_scope.

(** ** Machine integers *)

(** Conversion to [uint8_t] and to [uint16_t]: reduction modulo 2^8, 2^16. *)
Definition to_u8 (x : Z) : Z := x mod 256.
Definition to_u16 (x : Z) : Z := x mod 65536.

(** ** Result codes *)

(** The driver only ever compares a result with the success code, so the two
    families of codes are modelled by two-valued types. *)
Inductive I2cStatus : Set := US_I2C_SUCCESS | US_I2C_ERROR.
Inductive LibStatus : Set := PCA9685LIB_SUCCESS | PCA9685LIB_ERROR.

(** ** Bit-fields of the mode registers

    [PCA9685Mode1Reg_u] and [PCA9685Mode2Reg_u] overlay a byte [regValue] and
    a struct of bit-fields.  A bit-field is described by the position of its
    lowest bit inside the byte and by its width; storing into it replaces
    exactly these bits by the low bits of the stored value. *)
Record BitField : Set := { bf_shift : Z; bf_width : Z }.

Definition bf_mask (f : BitField) : Z :=
  Z.shiftl (Z.ones (bf_width f)) (bf_shift f).

Definition bf_store (f : BitField) (v regValue : Z) : Z :=
  Z.lor (Z.ldiff regValue (bf_mask f))
        (Z.shiftl (Z.land v (Z.ones (bf_width f))) (bf_shift f)).

(** ** The constants of pca9685lib.h, taken as a parameter *)

Record Header : Set := {
  PCA9685_MODE1_REG_ADDR : Z;
  PCA9685_MODE2_REG_ADDR : Z;
  PCA9685_LED0_ON_L_REG_ADDR : Z;
  PCA9685_LED0_ON_H_REG_ADDR : Z;
  PCA9685_LED0_OFF_L_REG_ADDR : Z;
  PCA9685_LED0_OFF_H_REG_ADDR : Z;
  PCA9685_LED15_OFF_H_REG_ADDR : Z;
  PCA9685_ALL_LED_ON_L_REG_ADDR : Z;
  PCA9685_ALL_LED_ON_H_REG_ADDR : Z;
  PCA9685_ALL_LED_OFF_L_REG_ADDR : Z;
  PCA9685_ALL_LED_OFF_H_REG_ADDR : Z;
  PCA9685_PRE_SCALE_REG_ADDR : Z;
  PCA9685_TEST_MODE_REG_ADDR : Z;
  PCA9685_MAX_PWM_CHANNELS : Z;
  PCA9685_MAX_PWM_VALUE : Z;
  PCA9685_MIN_PRESCALER : Z;
  mode1_restart : BitField;
  mode1_sleep : BitField;
  mode2_outne : BitField;
  mode2_invrt : BitField
}.

(** ** The bus transport (us-i2c.h), taken as a parameter

    [i2cRead] receives the present content of the destination byte and
    returns its content after the call, the way the C function receives a
    pointer to it. The transfer functions are assumed to leave the handle
    they are given unchanged. *)
Record Transport : Type := {
  I2cConf : Type;
  BusState : Type;
  i2cInit : Z -> I2cConf -> BusState -> (I2cStatus * I2cConf) * BusState;
  i2cClose : I2cConf -> BusState -> I2cStatus * BusState;
  i2cWrite : I2cConf -> Z -> Z -> Z -> Z -> Z -> BusState -> I2cStatus * BusState;
  i2cRead : I2cConf -> Z -> Z -> Z -> Z -> Z -> BusState -> (I2cStatus * Z) * BusState
}.

(** One entry of the log per call of a transport function, with the
    arguments of the call. *)
Inductive I2cCall (H : Type) : Type :=
| CallInit (devNumber : Z)
| CallClose (conf : H)
| CallWrite (conf : H) (addr regSize reg len data : Z)
| CallRead (conf : H) (addr regSize reg len : Z).

Arguments CallInit {H} _.
Arguments CallClose {H} _.
Arguments CallWrite {H} _ _ _ _ _ _.
Arguments CallRead {H} _ _ _ _ _.

(** [PCA9685I2CConf_t]. *)
Record PCA9685I2CConf_t (T : Transport) : Type := {
  i2cConf : I2cConf T;
  i2cAddr : Z
}.

Arguments i2cConf {T} _.
Arguments i2cAddr {T} _.

(** The state the driver runs in. [cells] holds the [uint16_t] objects the
    caller passes by address; a pointer is [None] (NULL) or [Some] location. *)
Record World (T : Transport) : Type := {
  bus : BusState T;
  calls : list (I2cCall (I2cConf T));
  cells : gmap nat Z
}.

Arguments bus {T} _.
Arguments calls {T} _.
Arguments cells {T} _.

(** ** A small state monad *)

Definition M (T : Transport) (A : Type) : Type := World T -> A * World T.

Definition ret {T : Transport} {A : Type} (a : A) : M T A := fun w => (a, w).

Definition bind {T : Transport} {A B : Type} (m : M T A) (k : A -> M T B) : M T B :=
  fun w => let (a, w') := m w in k a w'.

Notation "'call' x := m 'in' k" := (bind m (fun x => k))
  (at level 10, x pattern, m at level 100, k at level 200).

(** The pattern [if (call != PCA9685LIB_SUCCESS) return PCA9685LIB_ERROR;]. *)
Definition orfail {T : Transport} (m : M T LibStatus) (k : M T LibStatus) : M T LibStatus :=
  call st := m in
  match st with
  | PCA9685LIB_SUCCESS => k
  | PCA9685LIB_ERROR => ret PCA9685LIB_ERROR
  end.

Notation "'attempt' m 'in' k" := (orfail m k)
  (at level 10, m at level 100, k at level 200).

(** Content of a byte after a call that was given its address. *)
Definition pointee (p : option Z) (old : Z) : Z :=
  match p with Some v => v | None => old end.

(** The same pattern around a register read into a local byte that holds
    [old]: the continuation receives the content of the byte after the read. *)
Definition orfail_read {T : Transport} (m : M T (LibStatus * option Z)) (old : Z)
    (k : Z -> M T LibStatus) : M T LibStatus :=
  call r := m in
  match fst r with
  | PCA9685LIB_SUCCESS => k (pointee (snd r) old)
  | PCA9685LIB_ERROR => ret PCA9685LIB_ERROR
  end.

Notation "'fetch' x := m 'in' k" := (orfail_read m x (fun x => k))
  (at level 10, x name, m at level 100, k at level 200).

Definition is_null {A : Type} (p : option A) : bool :=
  match p with None => true | Some _ => false end.

Section Driver.

Variable T : Transport.
Variable hdr : Header.

(** *** Calls of the transport, logged *)

Definition bus_init (devNumber : Z) (conf : I2cConf T) : M T (I2cStatus * I2cConf T) :=
  fun w =>
    let (r, b) := i2cInit T devNumber conf (bus w) in
    (r, {| bus := b; calls := calls w ++ [CallInit devNumber]; cells := cells w |}).

Definition bus_close (conf : I2cConf T) : M T I2cStatus :=
  fun w =>
    let (r, b) := i2cClose T conf (bus w) in
    (r, {| bus := b; calls := calls w ++ [CallClose conf]; cells := cells w |}).

Definition bus_write (conf : I2cConf T) (addr regSize reg len data : Z) : M T I2cStatus :=
  fun w =>
    let (r, b) := i2cWrite T conf addr regSize reg len data (bus w) in
    (r, {| bus := b;
           calls := calls w ++ [CallWrite conf addr regSize reg len data];
           cells := cells w |}).

Definition bus_read (conf : I2cConf T) (addr regSize reg len data : Z) : M T (I2cStatus * Z) :=
  fun w =>
    let (r, b) := i2cRead T conf addr regSize reg len data (bus w) in
    (r, {| bus := b;
           calls := calls w ++ [CallRead conf addr regSize reg len];
           cells := cells w |}).

(** [*p = v] for a [uint16_t *p]. *)
Definition store16 (p : nat) (v : Z) : M T unit :=
  fun w => (tt, {| bus := bus w; calls := calls w; cells := <[p := v]> (cells w) |}).

(** *** Unexported functions *)

Definition PCA9685WriteReg (controllerConf : option (PCA9685I2CConf_t T))
    (reg data : Z) : M T LibStatus :=
  match controllerConf with
  | None => ret PCA9685LIB_ERROR
  | Some c =>
      if ((PCA9685_LED15_OFF_H_REG_ADDR hdr <? reg)
            && (reg <? PCA9685_ALL_LED_ON_L_REG_ADDR hdr))
         || (reg =? PCA9685_TEST_MODE_REG_ADDR hdr)
      then ret PCA9685LIB_ERROR
      else
        call st := bus_write (i2cConf c) (i2cAddr c) 1 reg 1 data in
        match st with
        | US_I2C_SUCCESS => ret PCA9685LIB_SUCCESS
        | US_I2C_ERROR => ret PCA9685LIB_ERROR
        end
  end.

(** [data] is the destination pointer: [None] for NULL, [Some v] for the
    address of a byte that holds [v]. The result carries the content of that
    byte after the call. *)
Definition PCA9685ReadReg (controllerConf : option (PCA9685I2CConf_t T))
    (reg : Z) (data : option Z) : M T (LibStatus * option Z) :=
  match controllerConf, data with
  | Some c, Some old =>
      if ((PCA9685_LED15_OFF_H_REG_ADDR hdr <? reg)
            && (reg <? PCA9685_ALL_LED_ON_L_REG_ADDR hdr))
         || (reg =? PCA9685_TEST_MODE_REG_ADDR hdr)
      then ret (PCA9685LIB_ERROR, data)
      else
        call (st, v) := bus_read (i2cConf c) (i2cAddr c) 1 reg 1 old in
        match st with
        | US_I2C_SUCCESS => ret (PCA9685LIB_SUCCESS, Some v)
        | US_I2C_ERROR => ret (PCA9685LIB_ERROR, Some v)
        end
  | _, _ => ret (PCA9685LIB_ERROR, data)
  end.

(** *** Exported functions *)

Definition PCA9685_Init (controllerConf : option (PCA9685I2CConf_t T))
    (i2cAddress i2cDevNumber : Z) : M T (LibStatus * option (PCA9685I2CConf_t T)) :=
  match controllerConf with
  | None => ret (PCA9685LIB_ERROR, None)
  | Some c =>
      call r := bus_init i2cDevNumber (i2cConf c) in
      match fst r with
      | US_I2C_ERROR =>
          ret (PCA9685LIB_ERROR, Some {| i2cConf := snd r; i2cAddr := i2cAddr c |})
      | US_I2C_SUCCESS =>
          ret (PCA9685LIB_SUCCESS, Some {| i2cConf := snd r; i2cAddr := i2cAddress |})
      end
  end.

Definition PCA9685_GetMode1Reg (controllerConf : option (PCA9685I2CConf_t T))
    (modeReg : option Z) : M T (LibStatus * option Z) :=
  if is_null controllerConf || is_null modeReg then ret (PCA9685LIB_ERROR, modeReg)
  else
    call r := PCA9685ReadReg controllerConf (PCA9685_MODE1_REG_ADDR hdr) modeReg in
    match fst r with
    | PCA9685LIB_SUCCESS => ret (PCA9685LIB_SUCCESS, snd r)
    | PCA9685LIB_ERROR => ret (PCA9685LIB_ERROR, snd r)
    end.

Definition PCA9685_SetMode1Reg (controllerConf : option (PCA9685I2CConf_t T))
    (modeReg : Z) : M T LibStatus :=
  if is_null controllerConf then ret PCA9685LIB_ERROR
  else
    attempt PCA9685WriteReg controllerConf (PCA9685_MODE1_REG_ADDR hdr) modeReg in
    ret PCA9685LIB_SUCCESS.

Definition PCA9685_GetMode2Reg (controllerConf : option (PCA9685I2CConf_t T))
    (modeReg : option Z) : M T (LibStatus * option Z) :=
  if is_null controllerConf || is_null modeReg then ret (PCA9685LIB_ERROR, modeReg)
  else
    call r := PCA9685ReadReg controllerConf (PCA9685_MODE2_REG_ADDR hdr) modeReg in
    match fst r with
    | PCA9685LIB_SUCCESS => ret (PCA9685LIB_SUCCESS, snd r)
    | PCA9685LIB_ERROR => ret (PCA9685LIB_ERROR, snd r)
    end.

Definition PCA9685_SetMode2Reg (controllerConf : option (PCA9685I2CConf_t T))
    (modeReg : Z) : M T LibStatus :=
  if is_null controllerConf then ret PCA9685LIB_ERROR
  else
    attempt PCA9685WriteReg controllerConf (PCA9685_MODE2_REG_ADDR hdr) (to_u8 modeReg) in
    ret PCA9685LIB_SUCCESS.

Definition PCA9685_GetPrescaler (controllerConf : option (PCA9685I2CConf_t T))
    (prescale : option Z) : M T (LibStatus * option Z) :=
  if is_null controllerConf || is_null prescale then ret (PCA9685LIB_ERROR, prescale)
  else
    call r := PCA9685ReadReg controllerConf (PCA9685_PRE_SCALE_REG_ADDR hdr) prescale in
    match fst r with
    | PCA9685LIB_SUCCESS => ret (PCA9685LIB_SUCCESS, snd r)
    | PCA9685LIB_ERROR => ret (PCA9685LIB_ERROR, snd r)
    end.

Definition PCA9685_SetPrescaler (controllerConf : option (PCA9685I2CConf_t T))
    (prescale : Z) : M T LibStatus :=
  if is_null controllerConf then ret PCA9685LIB_ERROR
  else
    let prescale :=
      if prescale <? PCA9685_MIN_PRESCALER hdr
      then PCA9685_MIN_PRESCALER hdr else prescale in
    attempt PCA9685WriteReg controllerConf (PCA9685_PRE_SCALE_REG_ADDR hdr) prescale in
    ret PCA9685LIB_SUCCESS.

Definition PCA9685_GetPWM (controllerConf : option (PCA9685I2CConf_t T))
    (channel : Z) (onValue offValue : option nat) : M T LibStatus :=
  let tmpValue_l := 0 in
  let tmpValue_h := 0 in
  match controllerConf, onValue, offValue with
  | Some _, Some pOn, Some pOff =>
      if PCA9685_MAX_PWM_CHANNELS hdr <? channel then ret PCA9685LIB_ERROR
      else
        fetch tmpValue_l :=
          PCA9685ReadReg controllerConf
            (to_u8 (PCA9685_LED0_ON_L_REG_ADDR hdr + channel * 4)) (Some tmpValue_l) in
        fetch tmpValue_h :=
          PCA9685ReadReg controllerConf
            (to_u8 (PCA9685_LED0_ON_H_REG_ADDR hdr + channel * 4)) (Some tmpValue_h) in
        call _ := store16 pOn (to_u16 (Z.lor (Z.shiftl tmpValue_h 8) tmpValue_l)) in
        fetch tmpValue_l :=
          PCA9685ReadReg controllerConf
            (to_u8 (PCA9685_LED0_OFF_L_REG_ADDR hdr + channel * 4)) (Some tmpValue_l) in
        fetch tmpValue_h :=
          PCA9685ReadReg controllerConf
            (to_u8 (PCA9685_LED0_OFF_H_REG_ADDR hdr + channel * 4)) (Some tmpValue_h) in
        call _ := store16 pOff (to_u16 (Z.lor (Z.shiftl tmpValue_h 8) tmpValue_l)) in
        ret PCA9685LIB_SUCCESS
  | _, _, _ => ret PCA9685LIB_ERROR
  end.

Definition PCA9685_SetPWM (controllerConf : option (PCA9685I2CConf_t T))
    (channel onValue offValue : Z) : M T LibStatus :=
  if is_null controllerConf then ret PCA9685LIB_ERROR
  else if PCA9685_MAX_PWM_CHANNELS hdr <? channel then ret PCA9685LIB_ERROR
  else if (PCA9685_MAX_PWM_VALUE hdr <? onValue)
          || (PCA9685_MAX_PWM_VALUE hdr <? offValue) then ret PCA9685LIB_ERROR
  else
    attempt PCA9685WriteReg controllerConf
      (to_u8 (PCA9685_LED0_ON_L_REG_ADDR hdr + channel * 4)) (to_u8 onValue) in
    attempt PCA9685WriteReg controllerConf
      (to_u8 (PCA9685_LED0_ON_H_REG_ADDR hdr + channel * 4))
      (to_u8 (Z.shiftr onValue 8)) in
    attempt PCA9685WriteReg controllerConf
      (to_u8 (PCA9685_LED0_OFF_L_REG_ADDR hdr + channel * 4)) (to_u8 offValue) in
    attempt PCA9685WriteReg controllerConf
      (to_u8 (PCA9685_LED0_OFF_H_REG_ADDR hdr + channel * 4))
      (to_u8 (Z.shiftr offValue 8)) in
    ret PCA9685LIB_SUCCESS.

Definition PCA9685_GetAllPWM (controllerConf : option (PCA9685I2CConf_t T))
    (onValue offValue : option nat) : M T LibStatus :=
  let tmpValue_l := 0 in
  let tmpValue_h := 0 in
  match controllerConf, onValue, offValue with
  | Some _, Some pOn, Some pOff =>
      fetch tmpValue_l :=
        PCA9685ReadReg controllerConf
          (PCA9685_ALL_LED_ON_L_REG_ADDR hdr) (Some tmpValue_l) in
      fetch tmpValue_h :=
        PCA9685ReadReg controllerConf
          (PCA9685_ALL_LED_ON_H_REG_ADDR hdr) (Some tmpValue_h) in
      call _ := store16 pOn (to_u16 (Z.lor (Z.shiftl tmpValue_h 8) tmpValue_l)) in
      fetch tmpValue_l :=
        PCA9685ReadReg controllerConf
          (PCA9685_ALL_LED_OFF_L_REG_ADDR hdr) (Some tmpValue_l) in
      fetch tmpValue_h :=
        PCA9685ReadReg controllerConf
          (PCA9685_ALL_LED_OFF_H_REG_ADDR hdr) (Some tmpValue_h) in
      call _ := store16 pOff (to_u16 (Z.lor (Z.shiftl tmpValue_h 8) tmpValue_l)) in
      ret PCA9685LIB_SUCCESS
  | _, _, _ => ret PCA9685LIB_ERROR
  end.

Definition PCA9685_SetAllPWM (controllerConf : option (PCA9685I2CConf_t T))
    (onValue offValue : Z) : M T LibStatus :=
  if is_null controllerConf then ret PCA9685LIB_ERROR
  else if (PCA9685_MAX_PWM_VALUE hdr <? onValue)
          || (PCA9685_MAX_PWM_VALUE hdr <? offValue) then ret PCA9685LIB_ERROR
  else
    attempt PCA9685WriteReg controllerConf
      (PCA9685_ALL_LED_ON_L_REG_ADDR hdr) (to_u8 onValue) in
    attempt PCA9685WriteReg controllerConf
      (PCA9685_ALL_LED_ON_H_REG_ADDR hdr) (to_u8 (Z.shiftr onValue 8)) in
    attempt PCA9685WriteReg controllerConf
      (PCA9685_ALL_LED_OFF_L_REG_ADDR hdr) (to_u8 offValue) in
    attempt PCA9685WriteReg controllerConf
      (PCA9685_ALL_LED_OFF_H_REG_ADDR hdr) (to_u8 (Z.shiftr offValue 8)) in
    ret PCA9685LIB_SUCCESS.

Definition PCA9685_Reset (controllerConf : option (PCA9685I2CConf_t T)) : M T LibStatus :=
  let mode1RegRead := 0 in
  if is_null controllerConf then ret PCA9685LIB_ERROR
  else
    fetch mode1RegRead :=
      PCA9685ReadReg controllerConf (PCA9685_MODE1_REG_ADDR hdr) (Some mode1RegRead) in
    let mode1RegRead := bf_store (mode1_restart hdr) 1 mode1RegRead in
    attempt PCA9685WriteReg controllerConf (PCA9685_MODE1_REG_ADDR hdr) mode1RegRead in
    ret PCA9685LIB_SUCCESS.

Definition PCA9685_Sleep (controllerConf : option (PCA9685I2CConf_t T)) : M T LibStatus :=
  let mode1RegRead := 0 in
  if is_null controllerConf then ret PCA9685LIB_ERROR
  else
    fetch mode1RegRead :=
      PCA9685ReadReg controllerConf (PCA9685_MODE1_REG_ADDR hdr) (Some mode1RegRead) in
    let mode1RegRead := bf_store (mode1_sleep hdr) 1 mode1RegRead in
    attempt PCA9685WriteReg controllerConf (PCA9685_MODE1_REG_ADDR hdr) mode1RegRead in
    ret PCA9685LIB_SUCCESS.

Definition PCA9685_WakeUp (controllerConf : option (PCA9685I2CConf_t T)) : M T LibStatus :=
  let mode1RegRead := 0 in
  if is_null controllerConf then ret PCA9685LIB_ERROR
  else
    fetch mode1RegRead :=
      PCA9685ReadReg controllerConf (PCA9685_MODE1_REG_ADDR hdr) (Some mode1RegRead) in
    let mode1RegRead := bf_store (mode1_sleep hdr) 0 mode1RegRead in
    attempt PCA9685WriteReg controllerConf (PCA9685_MODE1_REG_ADDR hdr) mode1RegRead in
    ret PCA9685LIB_SUCCESS.

Definition PCA9685_EnableOutput (controllerConf : option (PCA9685I2CConf_t T)) : M T LibStatus :=
  let mode2RegRead := 0 in
  if is_null controllerConf then ret PCA9685LIB_ERROR
  else
    fetch mode2RegRead :=
      PCA9685ReadReg controllerConf (PCA9685_MODE2_REG_ADDR hdr) (Some mode2RegRead) in
    let mode2RegRead := bf_store (mode2_outne hdr) 0 mode2RegRead in
    attempt PCA9685WriteReg controllerConf (PCA9685_MODE1_REG_ADDR hdr) mode2RegRead in
    ret PCA9685LIB_SUCCESS.

Definition PCA9685_DisableOutput (controllerConf : option (PCA9685I2CConf_t T)) : M T LibStatus :=
  let mode2RegRead := 0 in
  if is_null controllerConf then ret PCA9685LIB_ERROR
  else
    fetch mode2RegRead :=
      PCA9685ReadReg controllerConf (PCA9685_MODE2_REG_ADDR hdr) (Some mode2RegRead) in
    let mode2RegRead := bf_store (mode2_outne hdr) 3 mode2RegRead in
    attempt PCA9685WriteReg controllerConf (PCA9685_MODE1_REG_ADDR hdr) mode2RegRead in
    ret PCA9685LIB_SUCCESS.

Definition PCA9685_SetOutputInversion (controllerConf : option (PCA9685I2CConf_t T))
    (invrt : Z) : M T LibStatus :=
  let mode2RegRead := 0 in
  if is_null controllerConf then ret PCA9685LIB_ERROR
  else
    fetch mode2RegRead :=
      PCA9685ReadReg controllerConf (PCA9685_MODE2_REG_ADDR hdr) (Some mode2RegRead) in
    let mode2RegRead := bf_store (mode2_invrt hdr) invrt mode2RegRead in
    attempt PCA9685WriteReg controllerConf (PCA9685_MODE1_REG_ADDR hdr) mode2RegRead in
    ret PCA9685LIB_SUCCESS.

Definition PCA9685_Close (controllerConf : option (PCA9685I2CConf_t T)) : M T LibStatus :=
  match controllerConf with
  | None => ret PCA9685LIB_ERROR
  | Some c =>
      call st := bus_close (i2cConf c) in
      match st with
      | US_I2C_SUCCESS => ret PCA9685LIB_SUCCESS
      | US_I2C_ERROR => ret PCA9685LIB_ERROR
      end
  end.

End Driver.

Arguments PCA9685WriteReg {T} hdr controllerConf reg data _.
Arguments PCA9685ReadReg {T} hdr controllerConf reg data _.
Arguments PCA9685_Init {T} controllerConf i2cAddress i2cDevNumber _.
Arguments PCA9685_SetPrescaler {T} hdr controllerConf prescale _.
Arguments PCA9685_GetPWM {T} hdr controllerConf channel onValue offValue _.
Arguments PCA9685_SetPWM {T} hdr controllerConf channel onValue offValue _.
Arguments PCA9685_GetAllPWM {T} hdr controllerConf onValue offValue _.
Arguments PCA9685_SetAllPWM {T} hdr controllerConf onValue offValue _.
Arguments PCA9685_Reset {T} hdr controllerConf _.
Arguments PCA9685_Sleep {T} hdr controllerConf _.
Arguments PCA9685_WakeUp {T} hdr controllerConf _.
Arguments PCA9685_EnableOutput {T} hdr controllerConf _.
Arguments PCA9685_DisableOutput {T} hdr controllerConf _.
Arguments PCA9685_SetOutputInversion {T} hdr controllerConf invrt _.
Arguments bus_write {T} conf addr regSize reg len data _.
Arguments bus_read {T} conf addr regSize reg len data _.

(** ** The register map of the chip *)

(** Modelled from the spec: pca9685lib.h is not among the sources. The
    numeric limits are the ones the spec lists (max channel index 15, max PWM
    value 4095, minimum prescaler 3); the register addresses and the position
    of the bit-fields are those of the chip's register map (MODE1 0x00, MODE2
    0x01, LED0 0x06..0x09, LED15_OFF_H 0x45, ALL_LED 0xFA..0xFD, PRE_SCALE
    0xFE, test mode 0xFF; MODE1 restart bit 7, sleep bit 4; MODE2 invrt bit 4,
    outne bits 1..0). *)
Definition pca9685_header : Header := {|
  PCA9685_MODE1_REG_ADDR := 0x00;
  PCA9685_MODE2_REG_ADDR := 0x01;
  PCA9685_LED0_ON_L_REG_ADDR := 0x06;
  PCA9685_LED0_ON_H_REG_ADDR := 0x07;
  PCA9685_LED0_OFF_L_REG_ADDR := 0x08;
  PCA9685_LED0_OFF_H_REG_ADDR := 0x09;
  PCA9685_LED15_OFF_H_REG_ADDR := 0x45;
  PCA9685_ALL_LED_ON_L_REG_ADDR := 0xFA;
  PCA9685_ALL_LED_ON_H_REG_ADDR := 0xFB;
  PCA9685_ALL_LED_OFF_L_REG_ADDR := 0xFC;
  PCA9685_ALL_LED_OFF_H_REG_ADDR := 0xFD;
  PCA9685_PRE_SCALE_REG_ADDR := 0xFE;
  PCA9685_TEST_MODE_REG_ADDR := 0xFF;
  PCA9685_MAX_PWM_CHANNELS := 15;
  PCA9685_MAX_PWM_VALUE := 4095;
  PCA9685_MIN_PRESCALER := 3;
  mode1_restart := {| bf_shift := 7; bf_width := 1 |};
  mode1_sleep := {| bf_shift := 4; bf_width := 1 |};
  mode2_outne := {| bf_shift := 0; bf_width := 2 |};
  mode2_invrt := {| bf_shift := 4; bf_width := 1 |}
|}.

(** A register address the guard of the access primitives lets through. *)
Definition legal_reg (hdr : Header) (reg : Z) : bool :=
  negb (((PCA9685_LED15_OFF_H_REG_ADDR hdr <? reg)
           && (reg <? PCA9685_ALL_LED_ON_L_REG_ADDR hdr))
        || (reg =? PCA9685_TEST_MODE_REG_ADDR hdr)).

(** A bit-field that lies inside the byte. *)
Definition bf_ok (f : BitField) (width : Z) : bool :=
  (0 <=? bf_shift f) && (bf_width f =? width) && (bf_shift f + bf_width f <=? 8).

(** What the proofs need of the header, as the spec describes the map: the
    numeric limits, four consecutive registers per channel with a stride of
    four from LED0 up to LED15, the sixteen channels below the ALL_LED block,
    the mode and prescaler registers outside the forbidden region, and the
    named bit-fields inside their byte. *)
Definition header_ok (hdr : Header) : bool :=
  (PCA9685_MAX_PWM_CHANNELS hdr =? 15)
  && (PCA9685_MAX_PWM_VALUE hdr =? 4095)
  && (PCA9685_MIN_PRESCALER hdr =? 3)
  && (0 <=? PCA9685_LED0_ON_L_REG_ADDR hdr)
  && (PCA9685_LED0_ON_H_REG_ADDR hdr =? PCA9685_LED0_ON_L_REG_ADDR hdr + 1)
  && (PCA9685_LED0_OFF_L_REG_ADDR hdr =? PCA9685_LED0_ON_L_REG_ADDR hdr + 2)
  && (PCA9685_LED0_OFF_H_REG_ADDR hdr =? PCA9685_LED0_ON_L_REG_ADDR hdr + 3)
  && (PCA9685_LED15_OFF_H_REG_ADDR hdr =? PCA9685_LED0_OFF_H_REG_ADDR hdr + 15 * 4)
  && (PCA9685_LED15_OFF_H_REG_ADDR hdr <? PCA9685_ALL_LED_ON_L_REG_ADDR hdr)
  && (PCA9685_ALL_LED_ON_L_REG_ADDR hdr <=? 256)
  && ((PCA9685_TEST_MODE_REG_ADDR hdr <? PCA9685_LED0_ON_L_REG_ADDR hdr)
      || (PCA9685_LED15_OFF_H_REG_ADDR hdr <? PCA9685_TEST_MODE_REG_ADDR hdr))
  && legal_reg hdr (PCA9685_MODE1_REG_ADDR hdr)
  && legal_reg hdr (PCA9685_MODE2_REG_ADDR hdr)
  && legal_reg hdr (PCA9685_PRE_SCALE_REG_ADDR hdr)
  && negb (PCA9685_MODE1_REG_ADDR hdr =? PCA9685_MODE2_REG_ADDR hdr)
  && bf_ok (mode1_restart hdr) 1
  && bf_ok (mode1_sleep hdr) 1
  && bf_ok (mode2_outne hdr) 2
  && bf_ok (mode2_invrt hdr) 1.

(** ** Two transports to run the driver on *)

(** A device that keeps, per device address and register, the last byte
    written to it; a register never written reads as 0. Every call succeeds. *)
Definition persistent_bus : Transport := {|
  I2cConf := Z;
  BusState := gmap (Z * Z) Z;
  i2cInit := fun devNumber _ s => ((US_I2C_SUCCESS, devNumber), s);
  i2cClose := fun _ s => (US_I2C_SUCCESS, s);
  i2cWrite := fun _ addr _ reg _ data s => (US_I2C_SUCCESS, <[(addr, reg) := data]> s);
  i2cRead := fun _ addr _ reg _ _ s => ((US_I2C_SUCCESS, default 0 (s !! (addr, reg))), s)
|}.

(** The same device behind a bus that carries a given number of transfers and
    fails every later one, leaving the device and the destination byte
    alone. *)
Definition faulty_bus : Transport := {|
  I2cConf := Z;
  BusState := gmap (Z * Z) Z * nat;
  i2cInit := fun devNumber _ s => ((US_I2C_SUCCESS, devNumber), s);
  i2cClose := fun _ s => (US_I2C_SUCCESS, s);
  i2cWrite := fun _ addr _ reg _ data s =>
    match snd s with
    | O => (US_I2C_ERROR, s)
    | S n => (US_I2C_SUCCESS, (<[(addr, reg) := data]> (fst s), n))
    end;
  i2cRead := fun _ addr _ reg _ old s =>
    match snd s with
    | O => ((US_I2C_ERROR, old), s)
    | S n => ((US_I2C_SUCCESS, default 0 (fst s !! (addr, reg))), (fst s, n))
    end
|}.

(** Running a driver call: its result and the world it leaves. *)
Definition result {T : Transport} {A : Type} (m : M T A) (w : World T) : A := fst (m w).
Definition after {T : Transport} {A : Type} (m : M T A) (w : World T) : World T := snd (m w).

(** The byte the device of [persistent_bus] holds in a register. *)
Definition device_reg (s : gmap (Z * Z) Z) (addr reg : Z) : Z :=
  default 0 (s !! (addr, reg)).

(** ** Notions used to state the properties *)

(** [b] is [m] with bit [k] forced to [v] and every other bit kept. *)
Definition differs_only_at (k : Z) (v : bool) (m b : Z) : Prop :=
  forall i, 0 <= i -> Z.testbit b i = if i =? k then v else Z.testbit m i.

(** The shape shared by Reset, Sleep, WakeUp, EnableOutput, DisableOutput
    and SetOutputInversion: one read of [rreg] into a zeroed local, a change
    of the byte, one write of the changed byte to [wreg]. *)
Definition rmw {T : Transport} (hdr : Header) (c : PCA9685I2CConf_t T)
    (rreg wreg : Z) (change : Z -> Z) : M T LibStatus :=
  let regRead := 0 in
  fetch regRead :=
    PCA9685ReadReg hdr (Some c) rreg (Some regRead) in
  attempt PCA9685WriteReg hdr (Some c) wreg (change regRead) in
  ret PCA9685LIB_SUCCESS.

(** The four writes SetPWM asks for, in the order of the source, as
    (register, byte) pairs. *)
Definition pwm_writes (hdr : Header) (channel onValue offValue : Z) : list (Z * Z) :=
  [ (to_u8 (PCA9685_LED0_ON_L_REG_ADDR hdr + channel * 4), to_u8 onValue);
    (to_u8 (PCA9685_LED0_ON_H_REG_ADDR hdr + channel * 4), to_u8 (Z.shiftr onValue 8));
    (to_u8 (PCA9685_LED0_OFF_L_REG_ADDR hdr + channel * 4), to_u8 offValue);
    (to_u8 (PCA9685_LED0_OFF_H_REG_ADDR hdr + channel * 4), to_u8 (Z.shiftr offValue 8)) ].

(** A chain of register writes, each guarded by the early return. *)
Fixpoint write_seq {T : Transport} (hdr : Header) (conf : option (PCA9685I2CConf_t T))
    (ws : list (Z * Z)) : M T LibStatus :=
  match ws with
  | [] => ret PCA9685LIB_SUCCESS
  | rd :: ws' =>
      attempt PCA9685WriteReg hdr conf (fst rd) (snd rd) in
      write_seq hdr conf ws'
  end.

(** The state of the bus after the transport has carried a list of writes,
    provided it reported success for each of them. *)
Fixpoint transfer_all {T : Transport} (h : I2cConf T) (addr : Z) (ws : list (Z * Z))
    (s : BusState T) : option (BusState T) :=
  match ws with
  | [] => Some s
  | rd :: ws' =>
      match i2cWrite T h addr 1 (fst rd) 1 (snd rd) s with
      | (US_I2C_SUCCESS, s') => transfer_all h addr ws' s'
      | (US_I2C_ERROR, _) => None
      end
  end.

(** The log entry of the transport call that carries a write. *)
Definition write_call {T : Transport} (c : PCA9685I2CConf_t T) (rd : Z * Z)
    : I2cCall (I2cConf T) :=
  CallWrite (i2cConf c) (i2cAddr c) 1 (fst rd) 1 (snd rd).

(** ** Concrete runs *)

(** A handle on bus number 0 for the device at address 0x40, on either
    transport, and a world with a given device memory, an empty log and no
    cell written yet. *)
Definition handle_40 : PCA9685I2CConf_t persistent_bus :=
  Build_PCA9685I2CConf_t persistent_bus 0 0x40.

Definition faulty_handle_40 : PCA9685I2CConf_t faulty_bus :=
  Build_PCA9685I2CConf_t faulty_bus 0 0x40.

Definition world_of (mem : gmap (Z * Z) Z) : World persistent_bus :=
  Build_World persistent_bus mem [] ∅.

Definition faulty_world_of (mem : gmap (Z * Z) Z) (budget : nat) : World faulty_bus :=
  Build_World faulty_bus (mem, budget) [] ∅.

(** ** Notions used for the remaining functions *)

(** What the proofs about the ALL_LED group need of the header: the limit of
    4095 and four consecutive registers that the guard lets through. *)
Definition all_led_ok (hdr : Header) : bool :=
  (PCA9685_MAX_PWM_VALUE hdr =? 4095)
  && (PCA9685_ALL_LED_ON_H_REG_ADDR hdr =? PCA9685_ALL_LED_ON_L_REG_ADDR hdr + 1)
  && (PCA9685_ALL_LED_OFF_L_REG_ADDR hdr =? PCA9685_ALL_LED_ON_L_REG_ADDR hdr + 2)
  && (PCA9685_ALL_LED_OFF_H_REG_ADDR hdr =? PCA9685_ALL_LED_ON_L_REG_ADDR hdr + 3)
  && legal_reg hdr (PCA9685_ALL_LED_ON_L_REG_ADDR hdr)
  && legal_reg hdr (PCA9685_ALL_LED_ON_H_REG_ADDR hdr)
  && legal_reg hdr (PCA9685_ALL_LED_OFF_L_REG_ADDR hdr)
  && legal_reg hdr (PCA9685_ALL_LED_OFF_H_REG_ADDR hdr).

(** The four writes SetAllPWM asks for, in the order of the source. *)
Definition all_pwm_writes (hdr : Header) (onValue offValue : Z) : list (Z * Z) :=
  [ (PCA9685_ALL_LED_ON_L_REG_ADDR hdr, to_u8 onValue);
    (PCA9685_ALL_LED_ON_H_REG_ADDR hdr, to_u8 (Z.shiftr onValue 8));
    (PCA9685_ALL_LED_OFF_L_REG_ADDR hdr, to_u8 offValue);
    (PCA9685_ALL_LED_OFF_H_REG_ADDR hdr, to_u8 (Z.shiftr offValue 8)) ].

(** A single-byte read, respectively write, through the handle [c] to the
    device address stored in it. *)
Definition is_read_of {T : Transport} (c : PCA9685I2CConf_t T)
    (e : I2cCall (I2cConf T)) : Prop :=
  match e with
  | CallRead h addr regSize _ len =>
      h = i2cConf c /\ addr = i2cAddr c /\ regSize = 1 /\ len = 1
  | _ => False
  end.

Definition is_write_of {T : Transport} (c : PCA9685I2CConf_t T)
    (e : I2cCall (I2cConf T)) : Prop :=
  match e with
  | CallWrite h addr regSize _ len _ =>
      h = i2cConf c /\ addr = i2cAddr c /\ regSize = 1 /\ len = 1
  | _ => False
  end.

(** From any world, the computation [m] adds at most [n] calls to the log,
    each of them satisfying [P]. *)
Definition issues {T : Transport} {A : Type} (P : I2cCall (I2cConf T) -> Prop)
    (n : nat) (m : M T A) : Prop :=
  forall w : World T,
    exists l, calls (snd (m w)) = calls w ++ l /\ Forall P l /\ (length l <= n)%nat.

(** The calls a read-modify-write can add to the log from the world [w]:
    none, the read alone, or, when the transport reports success for the
    read, the read followed by the write of the changed byte. *)
Definition rmw_shape {T : Transport} (c : PCA9685I2CConf_t T) (rreg wreg : Z)
    (change : Z -> Z) (w : World T) (l : list (I2cCall (I2cConf T))) : Prop :=
  let rd := i2cRead T (i2cConf c) (i2cAddr c) 1 rreg 1 0 (bus w) in
  l = []
  \/ l = [CallRead (i2cConf c) (i2cAddr c) 1 rreg 1]
  \/ (fst (fst rd) = US_I2C_SUCCESS
      /\ l = [CallRead (i2cConf c) (i2cAddr c) 1 rreg 1;
              CallWrite (i2cConf c) (i2cAddr c) 1 wreg 1 (change (snd (fst rd)))]).

(** A header with another value for [PCA9685_MAX_PWM_CHANNELS]. *)
Definition with_max_channels (n : Z) (hdr : Header) : Header :=
  {| PCA9685_MODE1_REG_ADDR := PCA9685_MODE1_REG_ADDR hdr;
     PCA9685_MODE2_REG_ADDR := PCA9685_MODE2_REG_ADDR hdr;
     PCA9685_LED0_ON_L_REG_ADDR := PCA9685_LED0_ON_L_REG_ADDR hdr;
     PCA9685_LED0_ON_H_REG_ADDR := PCA9685_LED0_ON_H_REG_ADDR hdr;
     PCA9685_LED0_OFF_L_REG_ADDR := PCA9685_LED0_OFF_L_REG_ADDR hdr;
     PCA9685_LED0_OFF_H_REG_ADDR := PCA9685_LED0_OFF_H_REG_ADDR hdr;
     PCA9685_LED15_OFF_H_REG_ADDR := PCA9685_LED15_OFF_H_REG_ADDR hdr;
     PCA9685_ALL_LED_ON_L_REG_ADDR := PCA9685_ALL_LED_ON_L_REG_ADDR hdr;
     PCA9685_ALL_LED_ON_H_REG_ADDR := PCA9685_ALL_LED_ON_H_REG_ADDR hdr;
     PCA9685_ALL_LED_OFF_L_REG_ADDR := PCA9685_ALL_LED_OFF_L_REG_ADDR hdr;
     PCA9685_ALL_LED_OFF_H_REG_ADDR := PCA9685_ALL_LED_OFF_H_REG_ADDR hdr;
     PCA9685_PRE_SCALE_REG_ADDR := PCA9685_PRE_SCALE_REG_ADDR hdr;
     PCA9685_TEST_MODE_REG_ADDR := PCA9685_TEST_MODE_REG_ADDR hdr;
     PCA9685_MAX_PWM_CHANNELS := n;
     PCA9685_MAX_PWM_VALUE := PCA9685_MAX_PWM_VALUE hdr;
     PCA9685_MIN_PRESCALER := PCA9685_MIN_PRESCALER hdr;
     mode1_restart := mode1_restart hdr;
     mode1_sleep := mode1_sleep hdr;
     mode2_outne := mode2_outne hdr;
     mode2_invrt := mode2_invrt hdr |}.

(** * Verification *)

(** ** Arithmetic of the byte split and merge *)

Lemma to_u8_small (x : Z) : 0 <= x < 256 -> to_u8 x = x.
Proof. intros H. unfold to_u8. apply Z.mod_small. exact H. Qed.

(** A multiple of 256 and a byte share no bit. *)
Lemma high_low_disjoint (q r : Z) : 0 <= r < 256 -> Z.land (q * 256) r = 0.
Proof.
  intros Hr. apply Z.bits_inj'. intros n Hn.
  rewrite Z.land_spec, Z.bits_0.
  change 256 with (2 ^ 8).
  destruct (Z.lt_ge_cases n 8) as [Hlt | Hge].
  - rewrite Z.mul_pow2_bits_low by lia. reflexivity.
  - replace r with (r mod 2 ^ 8) by (apply Z.mod_small; exact Hr).
    rewrite Z.mod_pow2_bits_high by lia. apply andb_false_r.
Qed.

(** The low and the high byte of a 16-bit value, merged again. *)
Lemma merge_split (v : Z) :
  0 <= v < 65536 ->
  to_u16 (Z.lor (Z.shiftl (to_u8 (Z.shiftr v 8)) 8) (to_u8 v)) = v.
Proof.
  intros Hv. unfold to_u16, to_u8.
  rewrite Z.shiftr_div_pow2 by lia.
  rewrite Z.shiftl_mul_pow2 by lia.
  change (2 ^ 8) with 256.
  assert (Hq : 0 <= v / 256 < 256).
  { split; [apply Z.div_pos; lia | apply Z.div_lt_upper_bound; lia]. }
  rewrite (Z.mod_small (v / 256)) by exact Hq.
  assert (Hr : 0 <= v mod 256 < 256) by (apply Z.mod_pos_bound; lia).
  rewrite <- Z.add_nocarry_lor by (apply high_low_disjoint; exact Hr).
  rewrite (Z.mul_comm (v / 256) 256), <- Z.div_mod by lia.
  apply Z.mod_small. exact Hv.
Qed.

(** ** What [header_ok] gives *)

Lemma legal_reg_spec (hdr : Header) (reg : Z) :
  legal_reg hdr reg = true <->
  (reg <= PCA9685_LED15_OFF_H_REG_ADDR hdr \/ PCA9685_ALL_LED_ON_L_REG_ADDR hdr <= reg)
  /\ reg <> PCA9685_TEST_MODE_REG_ADDR hdr.
Proof.
  unfold legal_reg.
  rewrite negb_true_iff, orb_false_iff, andb_false_iff.
  rewrite !Z.ltb_ge, Z.eqb_neq. tauto.
Qed.

Lemma guard_of_legal (hdr : Header) (reg : Z) :
  legal_reg hdr reg = true ->
  ((PCA9685_LED15_OFF_H_REG_ADDR hdr <? reg)
     && (reg <? PCA9685_ALL_LED_ON_L_REG_ADDR hdr))
  || (reg =? PCA9685_TEST_MODE_REG_ADDR hdr) = false.
Proof. unfold legal_reg. intros H. apply negb_true_iff in H. exact H. Qed.

Lemma guard_of_forbidden (hdr : Header) (reg : Z) :
  PCA9685_LED15_OFF_H_REG_ADDR hdr < reg < PCA9685_ALL_LED_ON_L_REG_ADDR hdr
  \/ reg = PCA9685_TEST_MODE_REG_ADDR hdr ->
  ((PCA9685_LED15_OFF_H_REG_ADDR hdr <? reg)
     && (reg <? PCA9685_ALL_LED_ON_L_REG_ADDR hdr))
  || (reg =? PCA9685_TEST_MODE_REG_ADDR hdr) = true.
Proof.
  intros [[H1 H2] | H].
  - apply Z.ltb_lt in H1, H2. rewrite H1, H2. reflexivity.
  - apply Z.eqb_eq in H. rewrite H. apply orb_true_r.
Qed.

(** ** The access primitives, step by step *)

Section Primitives.

Context {T : Transport} (hdr : Header) (c : PCA9685I2CConf_t T).

Lemma WriteReg_forbidden (conf : option (PCA9685I2CConf_t T)) (reg data : Z) (w : World T) :
  PCA9685_LED15_OFF_H_REG_ADDR hdr < reg < PCA9685_ALL_LED_ON_L_REG_ADDR hdr
  \/ reg = PCA9685_TEST_MODE_REG_ADDR hdr ->
  PCA9685WriteReg hdr conf reg data w = (PCA9685LIB_ERROR, w).
Proof.
  intros H. unfold PCA9685WriteReg. destruct conf as [c' |]; [| reflexivity].
  rewrite (guard_of_forbidden _ _ H). reflexivity.
Qed.

Lemma ReadReg_forbidden (conf : option (PCA9685I2CConf_t T)) (reg : Z) (data : option Z)
    (w : World T) :
  PCA9685_LED15_OFF_H_REG_ADDR hdr < reg < PCA9685_ALL_LED_ON_L_REG_ADDR hdr
  \/ reg = PCA9685_TEST_MODE_REG_ADDR hdr ->
  PCA9685ReadReg hdr conf reg data w = ((PCA9685LIB_ERROR, data), w).
Proof.
  intros H. unfold PCA9685ReadReg.
  destruct conf as [c' |]; [| reflexivity].
  destruct data as [old |]; [| reflexivity].
  rewrite (guard_of_forbidden _ _ H). reflexivity.
Qed.

Lemma WriteReg_legal (reg data : Z) (w : World T) :
  legal_reg hdr reg = true ->
  PCA9685WriteReg hdr (Some c) reg data w =
  (match fst (i2cWrite T (i2cConf c) (i2cAddr c) 1 reg 1 data (bus w)) with
   | US_I2C_SUCCESS => PCA9685LIB_SUCCESS
   | US_I2C_ERROR => PCA9685LIB_ERROR
   end,
   {| bus := snd (i2cWrite T (i2cConf c) (i2cAddr c) 1 reg 1 data (bus w));
      calls := calls w ++ [CallWrite (i2cConf c) (i2cAddr c) 1 reg 1 data];
      cells := cells w |}).
Proof.
  intros H. unfold PCA9685WriteReg. rewrite (guard_of_legal _ _ H).
  unfold bind, bus_write.
  destruct (i2cWrite T (i2cConf c) (i2cAddr c) 1 reg 1 data (bus w)) as [[|] b];
    reflexivity.
Qed.

Lemma ReadReg_legal (reg old : Z) (w : World T) :
  legal_reg hdr reg = true ->
  PCA9685ReadReg hdr (Some c) reg (Some old) w =
  ((match fst (fst (i2cRead T (i2cConf c) (i2cAddr c) 1 reg 1 old (bus w))) with
    | US_I2C_SUCCESS => PCA9685LIB_SUCCESS
    | US_I2C_ERROR => PCA9685LIB_ERROR
    end,
    Some (snd (fst (i2cRead T (i2cConf c) (i2cAddr c) 1 reg 1 old (bus w))))),
   {| bus := snd (i2cRead T (i2cConf c) (i2cAddr c) 1 reg 1 old (bus w));
      calls := calls w ++ [CallRead (i2cConf c) (i2cAddr c) 1 reg 1];
      cells := cells w |}).
Proof.
  intros H. unfold PCA9685ReadReg. rewrite (guard_of_legal _ _ H).
  unfold bind, bus_read.
  destruct (i2cRead T (i2cConf c) (i2cAddr c) 1 reg 1 old (bus w)) as [[[|] v] b];
    reflexivity.
Qed.

End Primitives.

(** ** The registers of a channel *)

Ltac header_facts H :=
  unfold header_ok in H;
  repeat (let H' := fresh "Hhdr" in apply andb_prop in H; destruct H as [H H']);
  repeat match goal with
    | X : (_ =? _) = true |- _ => apply Z.eqb_eq in X
    | X : (_ <? _) = true |- _ => apply Z.ltb_lt in X
    | X : (_ <=? _) = true |- _ => apply Z.leb_le in X
    | X : negb (_ =? _) = true |- _ => apply negb_true_iff in X; apply Z.eqb_neq in X
    | X : (_ || _) = true |- _ => apply orb_prop in X
    end.

Lemma channel_regs (hdr : Header) (ch : Z) :
  header_ok hdr = true -> 0 <= ch <= 15 ->
  let base := PCA9685_LED0_ON_L_REG_ADDR hdr + ch * 4 in
  (to_u8 (PCA9685_LED0_ON_L_REG_ADDR hdr + ch * 4) = base
   /\ to_u8 (PCA9685_LED0_ON_H_REG_ADDR hdr + ch * 4) = base + 1
   /\ to_u8 (PCA9685_LED0_OFF_L_REG_ADDR hdr + ch * 4) = base + 2
   /\ to_u8 (PCA9685_LED0_OFF_H_REG_ADDR hdr + ch * 4) = base + 3)
  /\ (legal_reg hdr base = true
      /\ legal_reg hdr (base + 1) = true
      /\ legal_reg hdr (base + 2) = true
      /\ legal_reg hdr (base + 3) = true).
Proof.
  intros Hok Hch base. header_facts Hok.
  split.
  - repeat split; rewrite to_u8_small; subst base; lia.
  - repeat split; apply legal_reg_spec; subst base; split;
      solve [ left; lia
            | match goal with
              | X : _ \/ _ |- _ => destruct X as [Ht | Ht]; apply Z.ltb_lt in Ht; lia
              end ].
Qed.

(** ** Argument validation *)

(** C2. A register address strictly between the LED15-OFF-high address and
    the ALL-LED-ON-low address, or equal to the test-mode address, makes both
    access primitives return the error code, whatever the handle, the byte to
    write or the destination of the read; the world is left as it was, so no
    call of the transport was issued. *)
Theorem forbidden_register_rejected :
  forall (T : Transport) (hdr : Header) (controllerConf : option (PCA9685I2CConf_t T))
         (r data : Z) (dest : option Z) (w : World T),
    PCA9685_LED15_OFF_H_REG_ADDR hdr < r < PCA9685_ALL_LED_ON_L_REG_ADDR hdr
    \/ r = PCA9685_TEST_MODE_REG_ADDR hdr ->
    PCA9685WriteReg hdr controllerConf r data w = (PCA9685LIB_ERROR, w)
    /\ PCA9685ReadReg hdr controllerConf r dest w = ((PCA9685LIB_ERROR, dest), w).
Proof.
  intros T hdr conf r data dest w H. split.
  - apply WriteReg_forbidden. exact H.
  - apply ReadReg_forbidden. exact H.
Qed.

(** C8. A channel index above 15 makes SetPWM and GetPWM return the error
    code and leave the world as it was (no call of the transport, no store
    through the output pointers), whatever the values and the pointers. *)
Theorem channel_above_15_rejected :
  forall (T : Transport) (hdr : Header) (controllerConf : option (PCA9685I2CConf_t T))
         (c on off : Z) (onValue offValue : option nat) (w : World T),
    PCA9685_MAX_PWM_CHANNELS hdr = 15 ->
    15 < c ->
    PCA9685_SetPWM hdr controllerConf c on off w = (PCA9685LIB_ERROR, w)
    /\ PCA9685_GetPWM hdr controllerConf c onValue offValue w = (PCA9685LIB_ERROR, w).
Proof.
  intros T hdr conf c on off pOn pOff w Hmax Hc.
  assert (Hlt : (PCA9685_MAX_PWM_CHANNELS hdr <? c) = true)
    by (apply Z.ltb_lt; lia).
  split.
  - unfold PCA9685_SetPWM. destruct conf; simpl; [rewrite Hlt |]; reflexivity.
  - unfold PCA9685_GetPWM.
    destruct conf, pOn, pOff; try reflexivity.
    rewrite Hlt. reflexivity.
Qed.

(** The bound of C8 does not hinge on the channel guard alone: the registers
    channel 16 would designate start right after LED15-OFF-high, inside the
    forbidden region, so the access primitives reject it whatever the value
    of [PCA9685_MAX_PWM_CHANNELS]. *)
Remark channel_16_rejected_by_register_guard :
  forall (T : Transport) (hdr : Header) (controllerConf : option (PCA9685I2CConf_t T))
         (on off : Z) (onValue offValue : option nat) (w : World T),
    0 <= PCA9685_LED0_ON_L_REG_ADDR hdr ->
    PCA9685_LED15_OFF_H_REG_ADDR hdr = PCA9685_LED0_ON_L_REG_ADDR hdr + 63 ->
    PCA9685_LED0_ON_L_REG_ADDR hdr + 64 < PCA9685_ALL_LED_ON_L_REG_ADDR hdr <= 256 ->
    PCA9685_SetPWM hdr controllerConf 16 on off w = (PCA9685LIB_ERROR, w)
    /\ PCA9685_GetPWM hdr controllerConf 16 onValue offValue w = (PCA9685LIB_ERROR, w).
Proof.
  intros T hdr conf on off pOn pOff w H0 H15 Hall.
  assert (Hreg : to_u8 (PCA9685_LED0_ON_L_REG_ADDR hdr + 16 * 4)
                 = PCA9685_LED0_ON_L_REG_ADDR hdr + 64)
    by (apply to_u8_small; lia).
  assert (Hforbidden :
            PCA9685_LED15_OFF_H_REG_ADDR hdr < PCA9685_LED0_ON_L_REG_ADDR hdr + 64
              < PCA9685_ALL_LED_ON_L_REG_ADDR hdr
            \/ PCA9685_LED0_ON_L_REG_ADDR hdr + 64 = PCA9685_TEST_MODE_REG_ADDR hdr)
    by (left; lia).
  split.
  - unfold PCA9685_SetPWM. destruct conf as [c |]; cbn [is_null]; [| reflexivity].
    destruct (PCA9685_MAX_PWM_CHANNELS hdr <? 16); [reflexivity |].
    destruct ((PCA9685_MAX_PWM_VALUE hdr <? on) || (PCA9685_MAX_PWM_VALUE hdr <? off));
      [reflexivity |].
    unfold orfail, bind. rewrite Hreg.
    rewrite WriteReg_forbidden by exact Hforbidden. reflexivity.
  - unfold PCA9685_GetPWM. destruct conf as [c |], pOn, pOff; try reflexivity.
    destruct (PCA9685_MAX_PWM_CHANNELS hdr <? 16); [reflexivity |].
    unfold orfail_read, bind. rewrite Hreg.
    rewrite ReadReg_forbidden by exact Hforbidden. reflexivity.
Qed.

(** C9. An on-value or an off-value above 4095 makes SetPWM and SetAllPWM
    return the error code and leave the world as it was, whatever the
    channel index and the other value. *)
Theorem pwm_value_above_4095_rejected :
  forall (T : Transport) (hdr : Header) (controllerConf : option (PCA9685I2CConf_t T))
         (c on off : Z) (w : World T),
    PCA9685_MAX_PWM_VALUE hdr = 4095 ->
    4095 < on \/ 4095 < off ->
    PCA9685_SetPWM hdr controllerConf c on off w = (PCA9685LIB_ERROR, w)
    /\ PCA9685_SetAllPWM hdr controllerConf on off w = (PCA9685LIB_ERROR, w).
Proof.
  intros T hdr conf c on off w Hmax Hv.
  assert (Hgt : (PCA9685_MAX_PWM_VALUE hdr <? on)
                || (PCA9685_MAX_PWM_VALUE hdr <? off) = true).
  { apply orb_true_iff. rewrite !Z.ltb_lt. lia. }
  split.
  - unfold PCA9685_SetPWM. destruct conf; simpl; [| reflexivity].
    destruct (PCA9685_MAX_PWM_CHANNELS hdr <? c); [reflexivity |].
    rewrite Hgt. reflexivity.
  - unfold PCA9685_SetAllPWM. destruct conf; simpl; [| reflexivity].
    rewrite Hgt. reflexivity.
Qed.

(** ** The driver on the persistent device *)

Lemma device_reg_insert_eq (s : gmap (Z * Z) Z) (addr reg data : Z) :
  device_reg (<[(addr, reg) := data]> s) addr reg = data.
Proof. unfold device_reg. rewrite lookup_insert_eq. reflexivity. Qed.

Lemma device_reg_insert_ne (s : gmap (Z * Z) Z) (addr reg reg' data : Z) :
  reg <> reg' ->
  device_reg (<[(addr, reg) := data]> s) addr reg' = device_reg s addr reg'.
Proof.
  intros H. unfold device_reg. rewrite lookup_insert_ne; [reflexivity |].
  intros E. apply H. congruence.
Qed.

Section Persistent.

Variable hdr : Header.
Variable c : PCA9685I2CConf_t persistent_bus.

Lemma WriteReg_persistent (reg data : Z) (w : World persistent_bus) :
  legal_reg hdr reg = true ->
  PCA9685WriteReg hdr (Some c) reg data w =
  (PCA9685LIB_SUCCESS,
   {| bus := <[(i2cAddr c, reg) := data]> (bus w);
      calls := calls w ++ [CallWrite (i2cConf c) (i2cAddr c) 1 reg 1 data];
      cells := cells w |}).
Proof. intros H. rewrite WriteReg_legal by exact H. reflexivity. Qed.

Lemma ReadReg_persistent (reg old : Z) (w : World persistent_bus) :
  legal_reg hdr reg = true ->
  PCA9685ReadReg hdr (Some c) reg (Some old) w =
  ((PCA9685LIB_SUCCESS, Some (device_reg (bus w) (i2cAddr c) reg)),
   {| bus := bus w;
      calls := calls w ++ [CallRead (i2cConf c) (i2cAddr c) 1 reg 1];
      cells := cells w |}).
Proof. intros H. rewrite ReadReg_legal by exact H. reflexivity. Qed.

Lemma SetPWM_persistent (ch on off : Z) (w : World persistent_bus) :
  header_ok hdr = true -> 0 <= ch <= 15 -> on <= 4095 -> off <= 4095 ->
  let base := PCA9685_LED0_ON_L_REG_ADDR hdr + ch * 4 in
  PCA9685_SetPWM hdr (Some c) ch on off w =
  (PCA9685LIB_SUCCESS,
   {| bus := <[(i2cAddr c, base + 3) := to_u8 (Z.shiftr off 8)]>
               (<[(i2cAddr c, base + 2) := to_u8 off]>
                  (<[(i2cAddr c, base + 1) := to_u8 (Z.shiftr on 8)]>
                     (<[(i2cAddr c, base) := to_u8 on]> (bus w))));
      calls := calls w ++
               [CallWrite (i2cConf c) (i2cAddr c) 1 base 1 (to_u8 on);
                CallWrite (i2cConf c) (i2cAddr c) 1 (base + 1) 1 (to_u8 (Z.shiftr on 8));
                CallWrite (i2cConf c) (i2cAddr c) 1 (base + 2) 1 (to_u8 off);
                CallWrite (i2cConf c) (i2cAddr c) 1 (base + 3) 1 (to_u8 (Z.shiftr off 8))];
      cells := cells w |}).
Proof.
  intros Hok Hch Hon Hoff base. subst base.
  destruct (channel_regs hdr ch Hok Hch) as [(E0 & E1 & E2 & E3) (L0 & L1 & L2 & L3)].
  header_facts Hok.
  unfold PCA9685_SetPWM. cbn [is_null].
  replace (PCA9685_MAX_PWM_CHANNELS hdr <? ch) with false
    by (symmetry; apply Z.ltb_ge; lia).
  replace (PCA9685_MAX_PWM_VALUE hdr <? on) with false
    by (symmetry; apply Z.ltb_ge; lia).
  replace (PCA9685_MAX_PWM_VALUE hdr <? off) with false
    by (symmetry; apply Z.ltb_ge; lia).
  cbn [orb]. rewrite E0, E1, E2, E3.
  unfold orfail, bind.
  rewrite WriteReg_persistent by exact L0.
  rewrite WriteReg_persistent by exact L1.
  rewrite WriteReg_persistent by exact L2.
  rewrite WriteReg_persistent by exact L3.
  cbn [bus calls cells]. unfold ret.
  rewrite <- !app_assoc. reflexivity.
Qed.

Lemma GetPWM_persistent (ch : Z) (pOn pOff : nat) (w : World persistent_bus) :
  header_ok hdr = true -> 0 <= ch <= 15 ->
  let base := PCA9685_LED0_ON_L_REG_ADDR hdr + ch * 4 in
  let reg r := device_reg (bus w) (i2cAddr c) r in
  PCA9685_GetPWM hdr (Some c) ch (Some pOn) (Some pOff) w =
  (PCA9685LIB_SUCCESS,
   {| bus := bus w;
      calls := calls w ++
               [CallRead (i2cConf c) (i2cAddr c) 1 base 1;
                CallRead (i2cConf c) (i2cAddr c) 1 (base + 1) 1;
                CallRead (i2cConf c) (i2cAddr c) 1 (base + 2) 1;
                CallRead (i2cConf c) (i2cAddr c) 1 (base + 3) 1];
      cells := <[pOff := to_u16 (Z.lor (Z.shiftl (reg (base + 3)) 8) (reg (base + 2)))]>
                 (<[pOn := to_u16 (Z.lor (Z.shiftl (reg (base + 1)) 8) (reg base))]>
                    (cells w)) |}).
Proof.
  intros Hok Hch base reg. subst base reg.
  destruct (channel_regs hdr ch Hok Hch) as [(E0 & E1 & E2 & E3) (L0 & L1 & L2 & L3)].
  header_facts Hok.
  unfold PCA9685_GetPWM.
  replace (PCA9685_MAX_PWM_CHANNELS hdr <? ch) with false
    by (symmetry; apply Z.ltb_ge; lia).
  rewrite E0, E1, E2, E3.
  unfold orfail_read, bind.
  rewrite ReadReg_persistent by exact L0. cbn [fst snd pointee].
  rewrite ReadReg_persistent by exact L1. cbn [fst snd pointee bus calls cells].
  unfold store16 at 1. cbn [bus calls cells].
  rewrite ReadReg_persistent by exact L2. cbn [fst snd pointee bus calls cells].
  rewrite ReadReg_persistent by exact L3. cbn [fst snd pointee bus calls cells].
  unfold store16, ret. cbn [bus calls cells].
  rewrite <- !app_assoc. reflexivity.
Qed.

End Persistent.

(** ** Round trip of a PWM pair *)

Ltac device_lookup :=
  repeat first [ rewrite device_reg_insert_eq
               | rewrite device_reg_insert_ne by lia ].

Lemma SetPWM_then_GetPWM_persistent (hdr : Header) (conf : PCA9685I2CConf_t persistent_bus)
    (c on off : Z) (pOn pOff : nat) (w : World persistent_bus) :
  header_ok hdr = true ->
  0 <= c <= 15 -> 0 <= on <= 4095 -> 0 <= off <= 4095 ->
  pOn <> pOff ->
  let w1 := after (PCA9685_SetPWM hdr (Some conf) c on off) w in
  let w2 := after (PCA9685_GetPWM hdr (Some conf) c (Some pOn) (Some pOff)) w1 in
  result (PCA9685_SetPWM hdr (Some conf) c on off) w = PCA9685LIB_SUCCESS
  /\ result (PCA9685_GetPWM hdr (Some conf) c (Some pOn) (Some pOff)) w1
     = PCA9685LIB_SUCCESS
  /\ cells w2 !! pOn = Some on
  /\ cells w2 !! pOff = Some off.
Proof.
  intros Hok Hc Hon Hoff Hne w1 w2.
  subst w2 w1. unfold result, after.
  rewrite SetPWM_persistent by (assumption || lia). cbn [fst snd].
  rewrite GetPWM_persistent by assumption. cbn [fst snd bus calls cells].
  repeat split.
  - rewrite lookup_insert_ne by (intros E; apply Hne; symmetry; exact E).
    rewrite lookup_insert_eq. f_equal.
    device_lookup. apply merge_split. lia.
  - rewrite lookup_insert_eq. f_equal.
    device_lookup. apply merge_split. lia.
Qed.

(** C3. On the persistent device, for a channel index in [0,15] and an
    on-value and an off-value in [0,4095], SetPWM followed by GetPWM on the
    same channel both succeed, and GetPWM leaves exactly the pair that was
    set in its two (distinct) output cells. *)
Theorem SetPWM_GetPWM_roundtrip :
  forall (hdr : Header) (conf : PCA9685I2CConf_t persistent_bus) (c on off : Z)
         (onValue offValue : nat) (w : World persistent_bus),
    header_ok hdr = true ->
    0 <= c <= 15 -> 0 <= on <= 4095 -> 0 <= off <= 4095 ->
    onValue <> offValue ->
    let w1 := after (PCA9685_SetPWM hdr (Some conf) c on off) w in
    let w2 := after (PCA9685_GetPWM hdr (Some conf) c (Some onValue) (Some offValue)) w1 in
    result (PCA9685_SetPWM hdr (Some conf) c on off) w = PCA9685LIB_SUCCESS
    /\ result (PCA9685_GetPWM hdr (Some conf) c (Some onValue) (Some offValue)) w1
       = PCA9685LIB_SUCCESS
    /\ cells w2 !! onValue = Some on
    /\ cells w2 !! offValue = Some off.
Proof.
  intros hdr conf c on off pOn pOff w Hok Hc Hon Hoff Hne.
  apply SetPWM_then_GetPWM_persistent; assumption.
Qed.

(** C7. On the persistent device: after Init with device address 0x40 on bus
    number 0, SetPWM(0, 0, 2048) succeeds and issues exactly four calls of
    the transport, the writes of 0x00, 0x00, 0x00, 0x08 to the ON-low,
    ON-high, OFF-low and OFF-high registers of channel 0 in this order, and
    GetPWM(0) then succeeds and leaves (0, 2048) in its output cells. *)
Theorem init_SetPWM_GetPWM_scenario :
  forall (hdr : Header) (conf0 : PCA9685I2CConf_t persistent_bus)
         (onValue offValue : nat) (w : World persistent_bus),
    header_ok hdr = true ->
    onValue <> offValue ->
    let r0 := PCA9685_Init (Some conf0) 0x40 0 w in
    let conf := snd (fst r0) in
    let w0 := snd r0 in
    let w1 := after (PCA9685_SetPWM hdr conf 0 0 2048) w0 in
    let w2 := after (PCA9685_GetPWM hdr conf 0 (Some onValue) (Some offValue)) w1 in
    fst (fst r0) = PCA9685LIB_SUCCESS
    /\ calls w0 = calls w ++ [CallInit 0]
    /\ result (PCA9685_SetPWM hdr conf 0 0 2048) w0 = PCA9685LIB_SUCCESS
    /\ calls w1 = calls w0 ++
         [CallWrite 0 0x40 1 (PCA9685_LED0_ON_L_REG_ADDR hdr) 1 0x00;
          CallWrite 0 0x40 1 (PCA9685_LED0_ON_H_REG_ADDR hdr) 1 0x00;
          CallWrite 0 0x40 1 (PCA9685_LED0_OFF_L_REG_ADDR hdr) 1 0x00;
          CallWrite 0 0x40 1 (PCA9685_LED0_OFF_H_REG_ADDR hdr) 1 0x08]
    /\ result (PCA9685_GetPWM hdr conf 0 (Some onValue) (Some offValue)) w1
       = PCA9685LIB_SUCCESS
    /\ cells w2 !! onValue = Some 0
    /\ cells w2 !! offValue = Some 2048.
Proof.
  intros hdr conf0 pOn pOff w Hok Hne r0 conf w0 w1 w2.
  assert (Hconf : conf = Some (Build_PCA9685I2CConf_t persistent_bus 0 0x40))
    by reflexivity.
  assert (Hrt : result (PCA9685_SetPWM hdr conf 0 0 2048) w0 = PCA9685LIB_SUCCESS
                /\ result (PCA9685_GetPWM hdr conf 0 (Some pOn) (Some pOff)) w1
                   = PCA9685LIB_SUCCESS
                /\ cells w2 !! pOn = Some 0 /\ cells w2 !! pOff = Some 2048).
  { subst w2 w1. rewrite Hconf.
    apply SetPWM_then_GetPWM_persistent; (assumption || lia). }
  destruct Hrt as (R1 & R2 & R3 & R4).
  split; [reflexivity |]. split; [reflexivity |].
  repeat split; try assumption.
  subst w1. rewrite Hconf. unfold after.
  rewrite SetPWM_persistent by (assumption || lia). cbn [snd calls i2cConf i2cAddr].
  header_facts Hok.
  replace (PCA9685_LED0_ON_L_REG_ADDR hdr + 0 * 4)
    with (PCA9685_LED0_ON_L_REG_ADDR hdr) by lia.
  repeat match goal with
    | X : _ = PCA9685_LED0_ON_L_REG_ADDR hdr + _ |- _ => rewrite <- X
    end.
  reflexivity.
Qed.

(** ** Read-modify-write of the mode registers *)

(** A store into a bit-field replaces the bits of the field by the low bits
    of the stored value and keeps every other bit. *)
Lemma bf_store_bits (f : BitField) (v m i : Z) :
  0 <= bf_shift f -> 0 <= bf_width f -> 0 <= i ->
  Z.testbit (bf_store f v m) i =
  if (bf_shift f <=? i) && (i <? bf_shift f + bf_width f)
  then Z.testbit v (i - bf_shift f) else Z.testbit m i.
Proof.
  intros Hs Hw Hi. unfold bf_store, bf_mask.
  rewrite Z.lor_spec, Z.ldiff_spec, !Z.shiftl_spec, Z.land_spec by exact Hi.
  destruct (Z.leb_spec (bf_shift f) i) as [Hle | Hlt].
  - rewrite !Z.testbit_ones_nonneg by lia.
    destruct (Z.ltb_spec i (bf_shift f + bf_width f)) as [Hin | Hout].
    + replace (i - bf_shift f <? bf_width f) with true
        by (symmetry; apply Z.ltb_lt; lia).
      cbn [andb negb]. rewrite andb_false_r, andb_true_r. reflexivity.
    + replace (i - bf_shift f <? bf_width f) with false
        by (symmetry; apply Z.ltb_ge; lia).
      cbn [andb negb]. rewrite andb_true_r, andb_false_r, orb_false_r. reflexivity.
  - rewrite !(Z.testbit_neg_r _ (i - bf_shift f)) by lia.
    cbn [andb negb]. rewrite andb_true_r, orb_false_r. reflexivity.
Qed.

Lemma bf_store_one_bit (f : BitField) (v m : Z) :
  bf_ok f 1 = true ->
  differs_only_at (bf_shift f) (Z.testbit v 0) m (bf_store f v m).
Proof.
  intros Hf. unfold bf_ok in Hf.
  apply andb_prop in Hf. destruct Hf as [Hf H8].
  apply andb_prop in Hf. destruct Hf as [H0 Hw].
  apply Z.leb_le in H0. apply Z.eqb_eq in Hw.
  intros i Hi. rewrite bf_store_bits by lia. rewrite Hw.
  destruct (Z.eqb_spec i (bf_shift f)) as [-> | Hne].
  - replace (bf_shift f <=? bf_shift f) with true by (symmetry; apply Z.leb_le; lia).
    replace (bf_shift f <? bf_shift f + 1) with true by (symmetry; apply Z.ltb_lt; lia).
    cbn [andb]. rewrite Z.sub_diag. reflexivity.
  - destruct (Z.leb_spec (bf_shift f) i); [| reflexivity].
    replace (i <? bf_shift f + 1) with false by (symmetry; apply Z.ltb_ge; lia).
    reflexivity.
Qed.

Section ReadModifyWrite.

Context {T : Transport} (hdr : Header) (c : PCA9685I2CConf_t T).

Lemma rmw_world (rreg wreg : Z) (change : Z -> Z) (w : World T) (m : Z) (b1 : BusState T) :
  legal_reg hdr rreg = true -> legal_reg hdr wreg = true ->
  i2cRead T (i2cConf c) (i2cAddr c) 1 rreg 1 0 (bus w) = ((US_I2C_SUCCESS, m), b1) ->
  after (rmw hdr c rreg wreg change) w =
  {| bus := snd (i2cWrite T (i2cConf c) (i2cAddr c) 1 wreg 1 (change m) b1);
     calls := calls w ++ [CallRead (i2cConf c) (i2cAddr c) 1 rreg 1;
                          CallWrite (i2cConf c) (i2cAddr c) 1 wreg 1 (change m)];
     cells := cells w |}.
Proof.
  intros Hr Hw Hread. unfold after, rmw, orfail_read, orfail, bind.
  rewrite ReadReg_legal by exact Hr. rewrite Hread. cbn [fst snd pointee].
  rewrite WriteReg_legal by exact Hw. cbn [bus calls cells].
  destruct (fst (i2cWrite T _ _ _ _ _ _ _)); cbn [snd];
    rewrite <- app_assoc; reflexivity.
Qed.

Lemma Sleep_rmw : PCA9685_Sleep hdr (Some c) =
  rmw hdr c (PCA9685_MODE1_REG_ADDR hdr) (PCA9685_MODE1_REG_ADDR hdr)
      (bf_store (mode1_sleep hdr) 1).
Proof. reflexivity. Qed.

Lemma WakeUp_rmw : PCA9685_WakeUp hdr (Some c) =
  rmw hdr c (PCA9685_MODE1_REG_ADDR hdr) (PCA9685_MODE1_REG_ADDR hdr)
      (bf_store (mode1_sleep hdr) 0).
Proof. reflexivity. Qed.

Lemma Reset_rmw : PCA9685_Reset hdr (Some c) =
  rmw hdr c (PCA9685_MODE1_REG_ADDR hdr) (PCA9685_MODE1_REG_ADDR hdr)
      (bf_store (mode1_restart hdr) 1).
Proof. reflexivity. Qed.

Lemma EnableOutput_rmw : PCA9685_EnableOutput hdr (Some c) =
  rmw hdr c (PCA9685_MODE2_REG_ADDR hdr) (PCA9685_MODE1_REG_ADDR hdr)
      (bf_store (mode2_outne hdr) 0).
Proof. reflexivity. Qed.

Lemma DisableOutput_rmw : PCA9685_DisableOutput hdr (Some c) =
  rmw hdr c (PCA9685_MODE2_REG_ADDR hdr) (PCA9685_MODE1_REG_ADDR hdr)
      (bf_store (mode2_outne hdr) 3).
Proof. reflexivity. Qed.

Lemma SetOutputInversion_rmw (invrt : Z) : PCA9685_SetOutputInversion hdr (Some c) invrt =
  rmw hdr c (PCA9685_MODE2_REG_ADDR hdr) (PCA9685_MODE1_REG_ADDR hdr)
      (bf_store (mode2_invrt hdr) invrt).
Proof. reflexivity. Qed.

End ReadModifyWrite.

(** C4. When the read of Mode1 returns the byte [m], each of Sleep, WakeUp
    and Reset issues that read and then one write to the Mode1 register, and
    nothing else; the byte written is [m] with the sleep bit set (Sleep),
    with the sleep bit cleared (WakeUp), with the restart bit set (Reset),
    every other bit as in [m]. *)
Theorem mode1_bit_operations :
  forall (T : Transport) (hdr : Header) (c : PCA9685I2CConf_t T) (m : Z)
         (w : World T) (b1 : BusState T),
    header_ok hdr = true ->
    i2cRead T (i2cConf c) (i2cAddr c) 1 (PCA9685_MODE1_REG_ADDR hdr) 1 0 (bus w)
      = ((US_I2C_SUCCESS, m), b1) ->
    let written b : World T :=
      {| bus := snd (i2cWrite T (i2cConf c) (i2cAddr c) 1
                       (PCA9685_MODE1_REG_ADDR hdr) 1 b b1);
         calls := calls w ++
                  [CallRead (i2cConf c) (i2cAddr c) 1 (PCA9685_MODE1_REG_ADDR hdr) 1;
                   CallWrite (i2cConf c) (i2cAddr c) 1 (PCA9685_MODE1_REG_ADDR hdr) 1 b];
         cells := cells w |} in
    (exists b, after (PCA9685_Sleep hdr (Some c)) w = written b
               /\ differs_only_at (bf_shift (mode1_sleep hdr)) true m b)
    /\ (exists b, after (PCA9685_WakeUp hdr (Some c)) w = written b
                  /\ differs_only_at (bf_shift (mode1_sleep hdr)) false m b)
    /\ (exists b, after (PCA9685_Reset hdr (Some c)) w = written b
                  /\ differs_only_at (bf_shift (mode1_restart hdr)) true m b).
Proof.
  intros T hdr c m w b1 Hok Hread written. subst written.
  assert (Hok' := Hok). header_facts Hok'.
  repeat split.
  - exists (bf_store (mode1_sleep hdr) 1 m). split.
    + rewrite Sleep_rmw. apply rmw_world; assumption.
    + apply (bf_store_one_bit (mode1_sleep hdr) 1 m). assumption.
  - exists (bf_store (mode1_sleep hdr) 0 m). split.
    + rewrite WakeUp_rmw. apply rmw_world; assumption.
    + apply (bf_store_one_bit (mode1_sleep hdr) 0 m). assumption.
  - exists (bf_store (mode1_restart hdr) 1 m). split.
    + rewrite Reset_rmw. apply rmw_world; assumption.
    + apply (bf_store_one_bit (mode1_restart hdr) 1 m). assumption.
Qed.

(** The three output-control functions read Mode2 and write the changed
    byte to the Mode1 address. *)
Lemma output_control_calls {T : Transport} (hdr : Header) (c : PCA9685I2CConf_t T)
    (invrt m : Z) (w : World T) (b1 : BusState T) :
  header_ok hdr = true ->
  i2cRead T (i2cConf c) (i2cAddr c) 1 (PCA9685_MODE2_REG_ADDR hdr) 1 0 (bus w)
    = ((US_I2C_SUCCESS, m), b1) ->
  let mode2_read := CallRead (i2cConf c) (i2cAddr c) 1 (PCA9685_MODE2_REG_ADDR hdr) 1 in
  let mode1_write := CallWrite (i2cConf c) (i2cAddr c) 1 (PCA9685_MODE1_REG_ADDR hdr) 1 in
  calls (after (PCA9685_EnableOutput hdr (Some c)) w)
  = calls w ++ [mode2_read; mode1_write (bf_store (mode2_outne hdr) 0 m)]
  /\ calls (after (PCA9685_DisableOutput hdr (Some c)) w)
     = calls w ++ [mode2_read; mode1_write (bf_store (mode2_outne hdr) 3 m)]
  /\ calls (after (PCA9685_SetOutputInversion hdr (Some c) invrt) w)
     = calls w ++ [mode2_read; mode1_write (bf_store (mode2_invrt hdr) invrt m)].
Proof.
  intros Hok Hread mode2_read mode1_write. subst mode2_read mode1_write.
  header_facts Hok.
  rewrite EnableOutput_rmw, DisableOutput_rmw, SetOutputInversion_rmw.
  repeat split;
    rewrite (rmw_world hdr c _ _ _ w m b1) by assumption; reflexivity.
Qed.

(** C1. On the persistent device at address 0x40 with Mode1 = 0x21 and
    Mode2 = 0x04, each of EnableOutput, DisableOutput and
    SetOutputInversion(1) reads Mode2 and issues its single write to the
    Mode1 address: Mode1 ends up holding the changed Mode2 byte (0x04, 0x07,
    0x14) and Mode2 still holds 0x04. *)
Theorem output_control_writes_mode1 :
  let conf := Some (Build_PCA9685I2CConf_t persistent_bus 0 0x40) in
  let mode1 := PCA9685_MODE1_REG_ADDR pca9685_header in
  let mode2 := PCA9685_MODE2_REG_ADDR pca9685_header in
  let w : World persistent_bus :=
    {| bus := <[(0x40, mode1) := 0x21]> (<[(0x40, mode2) := 0x04]> ∅);
       calls := []; cells := ∅ |} in
  let w_en := after (PCA9685_EnableOutput pca9685_header conf) w in
  let w_dis := after (PCA9685_DisableOutput pca9685_header conf) w in
  let w_inv := after (PCA9685_SetOutputInversion pca9685_header conf 1) w in
  mode1 <> mode2
  /\ (calls w_en = [CallRead 0 0x40 1 mode2 1; CallWrite 0 0x40 1 mode1 1 0x04]
      /\ device_reg (bus w_en) 0x40 mode1 = 0x04
      /\ device_reg (bus w_en) 0x40 mode2 = 0x04)
  /\ (calls w_dis = [CallRead 0 0x40 1 mode2 1; CallWrite 0 0x40 1 mode1 1 0x07]
      /\ device_reg (bus w_dis) 0x40 mode1 = 0x07
      /\ device_reg (bus w_dis) 0x40 mode2 = 0x04)
  /\ (calls w_inv = [CallRead 0 0x40 1 mode2 1; CallWrite 0 0x40 1 mode1 1 0x14]
      /\ device_reg (bus w_inv) 0x40 mode1 = 0x14
      /\ device_reg (bus w_inv) 0x40 mode2 = 0x04).
Proof.
  cbv zeta. split; [discriminate |].
  repeat split; vm_compute; reflexivity.
Qed.

(** ** The prescaler *)

(** C5. SetPrescaler issues exactly one call of the transport, the write to
    the prescaler register of 3 when [p < 3] and of [p] otherwise; it
    returns the error code only when the transport reports a failure of that
    write; a second call with the same [p] issues the same write again. On
    the persistent device the prescaler register holds that byte after the
    first call and after the second. *)
Theorem SetPrescaler_clamps :
  forall (hdr : Header) (p : Z),
    PCA9685_MIN_PRESCALER hdr = 3 ->
    legal_reg hdr (PCA9685_PRE_SCALE_REG_ADDR hdr) = true ->
    let b := if p <? 3 then 3 else p in
    (forall (T : Transport) (c : PCA9685I2CConf_t T) (w : World T),
        let transfer :=
          i2cWrite T (i2cConf c) (i2cAddr c) 1 (PCA9685_PRE_SCALE_REG_ADDR hdr) 1 b in
        let prescale_write :=
          CallWrite (i2cConf c) (i2cAddr c) 1 (PCA9685_PRE_SCALE_REG_ADDR hdr) 1 b in
        let w1 := after (PCA9685_SetPrescaler hdr (Some c) p) w in
        let w2 := after (PCA9685_SetPrescaler hdr (Some c) p) w1 in
        calls w1 = calls w ++ [prescale_write]
        /\ bus w1 = snd (transfer (bus w))
        /\ (result (PCA9685_SetPrescaler hdr (Some c) p) w = PCA9685LIB_ERROR
            <-> fst (transfer (bus w)) = US_I2C_ERROR)
        /\ calls w2 = calls w ++ [prescale_write; prescale_write])
    /\ (forall (c : PCA9685I2CConf_t persistent_bus) (w : World persistent_bus),
          let w1 := after (PCA9685_SetPrescaler hdr (Some c) p) w in
          let w2 := after (PCA9685_SetPrescaler hdr (Some c) p) w1 in
          result (PCA9685_SetPrescaler hdr (Some c) p) w = PCA9685LIB_SUCCESS
          /\ device_reg (bus w1) (i2cAddr c) (PCA9685_PRE_SCALE_REG_ADDR hdr) = b
          /\ device_reg (bus w2) (i2cAddr c) (PCA9685_PRE_SCALE_REG_ADDR hdr) = b).
Proof.
  intros hdr p Hmin Hlegal b.
  assert (Hrun : forall (T : Transport) (c : PCA9685I2CConf_t T) (w : World T),
             PCA9685_SetPrescaler hdr (Some c) p w =
             (match fst (i2cWrite T (i2cConf c) (i2cAddr c) 1
                           (PCA9685_PRE_SCALE_REG_ADDR hdr) 1 b (bus w)) with
              | US_I2C_SUCCESS => PCA9685LIB_SUCCESS
              | US_I2C_ERROR => PCA9685LIB_ERROR
              end,
              {| bus := snd (i2cWrite T (i2cConf c) (i2cAddr c) 1
                               (PCA9685_PRE_SCALE_REG_ADDR hdr) 1 b (bus w));
                 calls := calls w ++
                          [CallWrite (i2cConf c) (i2cAddr c) 1
                             (PCA9685_PRE_SCALE_REG_ADDR hdr) 1 b];
                 cells := cells w |})).
  { intros T c w. unfold PCA9685_SetPrescaler. cbn [is_null].
    rewrite Hmin. fold b. unfold orfail, bind.
    rewrite WriteReg_legal by exact Hlegal.
    destruct (fst (i2cWrite T _ _ _ _ _ _ _)); reflexivity. }
  split.
  - intros T c w transfer prescale_write w1 w2.
    subst w2 w1 transfer prescale_write. unfold after, result.
    rewrite !Hrun. cbn [fst snd bus calls cells].
    repeat split.
    + destruct (fst (i2cWrite T _ _ _ _ _ _ _)); [discriminate | reflexivity].
    + intros ->. reflexivity.
    + rewrite <- app_assoc. reflexivity.
  - intros c w w1 w2. subst w2 w1. unfold after, result.
    rewrite !Hrun. cbn [fst snd bus calls cells persistent_bus i2cWrite].
    repeat split; device_lookup; reflexivity.
Qed.

(** ** Failure in the middle of a multi-register operation *)

Section WriteSequence.

Context {T : Transport} (hdr : Header) (c : PCA9685I2CConf_t T).

(** A chain of writes whose transfers all succeed. *)
Lemma write_seq_success (ws : list (Z * Z)) :
  Forall (fun rd => legal_reg hdr (fst rd) = true) ws ->
  forall (w : World T) (b : BusState T),
    transfer_all (i2cConf c) (i2cAddr c) ws (bus w) = Some b ->
    write_seq hdr (Some c) ws w =
    (PCA9685LIB_SUCCESS,
     {| bus := b; calls := calls w ++ map (write_call c) ws; cells := cells w |}).
Proof.
  induction 1 as [| rd ws Hrd Hws IH]; intros w b Hall.
  - cbn in Hall. injection Hall as <-. cbn. unfold ret.
    rewrite app_nil_r. destruct w; reflexivity.
  - cbn [transfer_all] in Hall. cbn [write_seq]. unfold orfail, bind.
    rewrite WriteReg_legal by exact Hrd.
    destruct (i2cWrite T (i2cConf c) (i2cAddr c) 1 (fst rd) 1 (snd rd) (bus w))
      as [[|] s'] eqn:Hw; [| discriminate].
    cbn [fst snd]. rewrite (IH _ b) by exact Hall.
    cbn [bus calls cells map]. rewrite <- app_assoc. reflexivity.
Qed.

(** A chain of writes whose transfer number [k] (from 0) is the first to
    fail: the chain stops there with the error code. *)
Lemma write_seq_failure (ws : list (Z * Z)) :
  Forall (fun rd => legal_reg hdr (fst rd) = true) ws ->
  forall (k : nat) (rd : Z * Z) (w : World T) (b1 b2 : BusState T),
    ws !! k = Some rd ->
    transfer_all (i2cConf c) (i2cAddr c) (take k ws) (bus w) = Some b1 ->
    i2cWrite T (i2cConf c) (i2cAddr c) 1 (fst rd) 1 (snd rd) b1 = (US_I2C_ERROR, b2) ->
    write_seq hdr (Some c) ws w =
    (PCA9685LIB_ERROR,
     {| bus := b2;
        calls := calls w ++ map (write_call c) (take (S k) ws);
        cells := cells w |}).
Proof.
  induction 1 as [| rd0 ws Hrd0 Hws IH]; intros k rd w b1 b2 Hk Hall Hfail.
  - rewrite lookup_nil in Hk. discriminate.
  - cbn [write_seq]. unfold orfail, bind.
    rewrite WriteReg_legal by exact Hrd0.
    destruct k as [| k].
    + cbn in Hk. injection Hk as ->.
      cbn in Hall. injection Hall as <-.
      rewrite Hfail. reflexivity.
    + cbn in Hk. cbn [take transfer_all] in Hall.
      destruct (i2cWrite T (i2cConf c) (i2cAddr c) 1 (fst rd0) 1 (snd rd0) (bus w))
        as [[|] s'] eqn:Hw; [| discriminate].
      cbn [fst snd]. rewrite (IH k rd _ b1 b2) by assumption.
      cbn [bus calls cells]. rewrite <- app_assoc. reflexivity.
Qed.

Lemma SetPWM_write_seq (ch on off : Z) :
  header_ok hdr = true -> ch <= 15 -> on <= 4095 -> off <= 4095 ->
  PCA9685_SetPWM hdr (Some c) ch on off
  = write_seq hdr (Some c) (pwm_writes hdr ch on off).
Proof.
  intros Hok Hch Hon Hoff. header_facts Hok.
  unfold PCA9685_SetPWM. cbn [is_null].
  replace (PCA9685_MAX_PWM_CHANNELS hdr <? ch) with false
    by (symmetry; apply Z.ltb_ge; lia).
  replace (PCA9685_MAX_PWM_VALUE hdr <? on) with false
    by (symmetry; apply Z.ltb_ge; lia).
  replace (PCA9685_MAX_PWM_VALUE hdr <? off) with false
    by (symmetry; apply Z.ltb_ge; lia).
  reflexivity.
Qed.

Lemma pwm_writes_legal (ch on off : Z) :
  header_ok hdr = true -> 0 <= ch <= 15 ->
  Forall (fun rd => legal_reg hdr (fst rd) = true) (pwm_writes hdr ch on off).
Proof.
  intros Hok Hch.
  destruct (channel_regs hdr ch Hok Hch) as [(E0 & E1 & E2 & E3) (L0 & L1 & L2 & L3)].
  unfold pwm_writes. repeat constructor; cbn [fst].
  - rewrite E0. exact L0.
  - rewrite E1. exact L1.
  - rewrite E2. exact L2.
  - rewrite E3. exact L3.
Qed.

End WriteSequence.

(** C6. Let write number [k] (counted from 0) of the four writes of SetPWM
    be the first one the transport fails: the writes before it were carried
    and left the bus in state [b1], the failing transfer leaves it in [b2].
    Then SetPWM returns the error code, the calls issued are the writes up
    to and including the failing one and nothing after it, and the bus is
    left in [b2]: no call is issued to undo the earlier writes. For [k = 1]
    this is the failure of the second write after the first was applied. *)
Theorem SetPWM_aborts_without_rollback :
  forall (T : Transport) (hdr : Header) (c : PCA9685I2CConf_t T) (ch on off : Z)
         (k : nat) (rd : Z * Z) (w : World T) (b1 b2 : BusState T),
    header_ok hdr = true ->
    0 <= ch <= 15 -> on <= 4095 -> off <= 4095 ->
    pwm_writes hdr ch on off !! k = Some rd ->
    transfer_all (i2cConf c) (i2cAddr c) (take k (pwm_writes hdr ch on off)) (bus w)
      = Some b1 ->
    i2cWrite T (i2cConf c) (i2cAddr c) 1 (fst rd) 1 (snd rd) b1 = (US_I2C_ERROR, b2) ->
    PCA9685_SetPWM hdr (Some c) ch on off w =
    (PCA9685LIB_ERROR,
     {| bus := b2;
        calls := calls w ++ map (write_call c) (take (S k) (pwm_writes hdr ch on off));
        cells := cells w |}).
Proof.
  intros T hdr c ch on off k rd w b1 b2 Hok Hch Hon Hoff Hk Hall Hfail.
  rewrite SetPWM_write_seq by (assumption || lia).
  apply (write_seq_failure hdr c _ (pwm_writes_legal hdr ch on off Hok Hch)
           k rd w b1 b2); assumption.
Qed.

(** C10. When the two reads of the ON registers succeed with the bytes [l]
    and [h] and then the read of the OFF-low register fails, or it succeeds
    and the read of the OFF-high register fails, GetPWM returns the error
    code, the cell behind [onValue] holds the on-value just read and the
    (distinct) cell behind [offValue] is as it was before the call. *)
Theorem GetPWM_partial_update :
  forall (T : Transport) (hdr : Header) (c : PCA9685I2CConf_t T) (ch : Z)
         (onValue offValue : nat) (w : World T) (l h : Z) (b1 b2 : BusState T),
    header_ok hdr = true ->
    0 <= ch <= 15 ->
    onValue <> offValue ->
    let read reg old s :=
      i2cRead T (i2cConf c) (i2cAddr c) 1 (to_u8 (reg + ch * 4)) 1 old s in
    read (PCA9685_LED0_ON_L_REG_ADDR hdr) 0 (bus w) = ((US_I2C_SUCCESS, l), b1) ->
    read (PCA9685_LED0_ON_H_REG_ADDR hdr) 0 b1 = ((US_I2C_SUCCESS, h), b2) ->
    (fst (fst (read (PCA9685_LED0_OFF_L_REG_ADDR hdr) l b2)) = US_I2C_ERROR
     \/ (fst (fst (read (PCA9685_LED0_OFF_L_REG_ADDR hdr) l b2)) = US_I2C_SUCCESS
         /\ fst (fst (read (PCA9685_LED0_OFF_H_REG_ADDR hdr) h
                        (snd (read (PCA9685_LED0_OFF_L_REG_ADDR hdr) l b2))))
            = US_I2C_ERROR)) ->
    let w' := after (PCA9685_GetPWM hdr (Some c) ch (Some onValue) (Some offValue)) w in
    result (PCA9685_GetPWM hdr (Some c) ch (Some onValue) (Some offValue)) w
      = PCA9685LIB_ERROR
    /\ cells w' !! onValue = Some (to_u16 (Z.lor (Z.shiftl h 8) l))
    /\ cells w' !! offValue = cells w !! offValue.
Proof.
  intros T hdr c ch pOn pOff w l h b1 b2 Hok Hch Hne read H1 H2 H34 w'.
  subst w' read. cbv beta in H1, H2, H34.
  destruct (channel_regs hdr ch Hok Hch) as [(E0 & E1 & E2 & E3) (L0 & L1 & L2 & L3)].
  rewrite <- E0 in L0. rewrite <- E1 in L1. rewrite <- E2 in L2. rewrite <- E3 in L3.
  header_facts Hok.
  unfold result, after, PCA9685_GetPWM.
  replace (PCA9685_MAX_PWM_CHANNELS hdr <? ch) with false
    by (symmetry; apply Z.ltb_ge; lia).
  unfold orfail_read, bind.
  rewrite ReadReg_legal by exact L0. rewrite H1. cbn [fst snd pointee].
  rewrite ReadReg_legal by exact L1. cbn [bus calls cells]. rewrite H2.
  cbn [fst snd pointee].
  unfold store16. cbn [bus calls cells].
  rewrite ReadReg_legal by exact L2. cbn [bus calls cells fst snd pointee].
  destruct H34 as [H3 | [H3 H4]]; rewrite H3.
  - unfold ret. cbn [fst snd cells].
    rewrite lookup_insert_eq, lookup_insert_ne by exact Hne. auto.
  - rewrite ReadReg_legal by exact L3. cbn [bus calls cells fst snd pointee].
    rewrite H4. unfold ret. cbn [fst snd cells].
    rewrite lookup_insert_eq, lookup_insert_ne by exact Hne. auto.
Qed.

(** ** The theorems at concrete inputs *)

(** Register 0x46, the first address of the forbidden region. *)
Lemma forbidden_register_rejected_witness :
  PCA9685WriteReg pca9685_header (Some handle_40) 0x46 0xAB (world_of ∅)
  = (PCA9685LIB_ERROR, world_of ∅)
  /\ PCA9685ReadReg pca9685_header (Some handle_40) 0x46 (Some 0) (world_of ∅)
     = ((PCA9685LIB_ERROR, Some 0), world_of ∅).
Proof.
  apply forbidden_register_rejected. left. cbn. lia.
Defined.

(** Channel 16. *)
Lemma channel_above_15_rejected_witness :
  PCA9685_SetPWM pca9685_header (Some handle_40) 16 0 2048 (world_of ∅)
  = (PCA9685LIB_ERROR, world_of ∅)
  /\ PCA9685_GetPWM pca9685_header (Some handle_40) 16 (Some 0%nat) (Some 1%nat) (world_of ∅)
     = (PCA9685LIB_ERROR, world_of ∅).
Proof.
  apply channel_above_15_rejected; [reflexivity | lia].
Defined.

(** On-value 4096. *)
Lemma pwm_value_above_4095_rejected_witness :
  PCA9685_SetPWM pca9685_header (Some handle_40) 0 4096 0 (world_of ∅)
  = (PCA9685LIB_ERROR, world_of ∅)
  /\ PCA9685_SetAllPWM pca9685_header (Some handle_40) 4096 0 (world_of ∅)
     = (PCA9685LIB_ERROR, world_of ∅).
Proof.
  apply pwm_value_above_4095_rejected; [reflexivity | left; lia].
Defined.

(** Channel 3, pair (100, 4095). *)
Lemma SetPWM_GetPWM_roundtrip_witness :
  let w1 := after (PCA9685_SetPWM pca9685_header (Some handle_40) 3 100 4095) (world_of ∅) in
  let w2 := after (PCA9685_GetPWM pca9685_header (Some handle_40) 3
                     (Some 0%nat) (Some 1%nat)) w1 in
  result (PCA9685_SetPWM pca9685_header (Some handle_40) 3 100 4095) (world_of ∅)
  = PCA9685LIB_SUCCESS
  /\ result (PCA9685_GetPWM pca9685_header (Some handle_40) 3
               (Some 0%nat) (Some 1%nat)) w1
     = PCA9685LIB_SUCCESS
  /\ cells w2 !! 0%nat = Some 100
  /\ cells w2 !! 1%nat = Some 4095.
Proof.
  apply SetPWM_GetPWM_roundtrip; [reflexivity | lia | lia | lia | lia].
Defined.

(** Mode1 = 0x21 on the persistent device. *)
Lemma mode1_bit_operations_witness :
  let w := world_of (<[(0x40, 0x00) := 0x21]> ∅) in
  let written b :=
    Build_World persistent_bus (<[(0x40, 0x00) := b]> (bus w))
      [CallRead 0 0x40 1 0x00 1; CallWrite 0 0x40 1 0x00 1 b] ∅ in
  (exists b, after (PCA9685_Sleep pca9685_header (Some handle_40)) w = written b
             /\ differs_only_at 4 true 0x21 b)
  /\ (exists b, after (PCA9685_WakeUp pca9685_header (Some handle_40)) w = written b
                /\ differs_only_at 4 false 0x21 b)
  /\ (exists b, after (PCA9685_Reset pca9685_header (Some handle_40)) w = written b
                /\ differs_only_at 7 true 0x21 b).
Proof.
  apply (mode1_bit_operations persistent_bus pca9685_header handle_40 0x21
           (world_of (<[(0x40, 0x00) := 0x21]> ∅)) (<[(0x40, 0x00) := 0x21]> ∅));
    reflexivity.
Defined.

(** Prescale input 1 on the chip's register map. *)
Lemma SetPrescaler_clamps_witness :
  let w1 := after (PCA9685_SetPrescaler pca9685_header (Some handle_40) 1) (world_of ∅) in
  let w2 := after (PCA9685_SetPrescaler pca9685_header (Some handle_40) 1) w1 in
  result (PCA9685_SetPrescaler pca9685_header (Some handle_40) 1) (world_of ∅)
  = PCA9685LIB_SUCCESS
  /\ device_reg (bus w1) 0x40 0xFE = 3
  /\ device_reg (bus w2) 0x40 0xFE = 3.
Proof.
  apply (proj2 (SetPrescaler_clamps pca9685_header 1 eq_refl eq_refl) handle_40 (world_of ∅)).
Defined.

(** Channel 0, pair (0x123, 0x456), on a bus that carries one transfer: the
    second write, of 0x01 to register 0x07, fails. *)
Lemma SetPWM_aborts_without_rollback_witness :
  PCA9685_SetPWM pca9685_header (Some faulty_handle_40) 0 0x123 0x456 (faulty_world_of ∅ 1)
  = (PCA9685LIB_ERROR,
     Build_World faulty_bus
       (<[(0x40, 0x06) := 0x23]> ∅, 0%nat)
       [CallWrite 0 0x40 1 0x06 1 0x23; CallWrite 0 0x40 1 0x07 1 0x01]
       ∅).
Proof.
  apply (SetPWM_aborts_without_rollback faulty_bus pca9685_header faulty_handle_40
           0 0x123 0x456 1 (0x07, 0x01) (faulty_world_of ∅ 1)
           (<[(0x40, 0x06) := 0x23]> ∅, 0%nat) (<[(0x40, 0x06) := 0x23]> ∅, 0%nat));
    try reflexivity; lia.
Defined.

(** The scenario on the chip's register map, from the empty world. *)
Lemma init_SetPWM_GetPWM_scenario_witness :
  let r0 := PCA9685_Init (Some handle_40) 0x40 0 (world_of ∅) in
  let conf := snd (fst r0) in
  let w0 := snd r0 in
  let w1 := after (PCA9685_SetPWM pca9685_header conf 0 0 2048) w0 in
  let w2 := after (PCA9685_GetPWM pca9685_header conf 0 (Some 0%nat) (Some 1%nat)) w1 in
  fst (fst r0) = PCA9685LIB_SUCCESS
  /\ calls w0 = [CallInit 0]
  /\ result (PCA9685_SetPWM pca9685_header conf 0 0 2048) w0 = PCA9685LIB_SUCCESS
  /\ calls w1 = calls w0 ++
       [CallWrite 0 0x40 1 0x06 1 0x00; CallWrite 0 0x40 1 0x07 1 0x00;
        CallWrite 0 0x40 1 0x08 1 0x00; CallWrite 0 0x40 1 0x09 1 0x08]
  /\ result (PCA9685_GetPWM pca9685_header conf 0 (Some 0%nat) (Some 1%nat)) w1
     = PCA9685LIB_SUCCESS
  /\ cells w2 !! 0%nat = Some 0
  /\ cells w2 !! 1%nat = Some 2048.
Proof.
  apply (init_SetPWM_GetPWM_scenario pca9685_header handle_40 0%nat 1%nat (world_of ∅));
    [reflexivity | lia].
Defined.

(** Channel 0 holding the on-value 0x234, on a bus that carries two
    transfers: the read of the OFF-low register fails. *)
Lemma GetPWM_partial_update_witness :
  let mem : gmap (Z * Z) Z := <[(0x40, 0x06) := 0x34]> (<[(0x40, 0x07) := 0x02]> ∅) in
  let w := faulty_world_of mem 2 in
  let w' := after (PCA9685_GetPWM pca9685_header (Some faulty_handle_40) 0
                     (Some 0%nat) (Some 1%nat)) w in
  result (PCA9685_GetPWM pca9685_header (Some faulty_handle_40) 0
            (Some 0%nat) (Some 1%nat)) w
  = PCA9685LIB_ERROR
  /\ cells w' !! 0%nat = Some 0x234
  /\ cells w' !! 1%nat = cells w !! 1%nat.
Proof.
  intros mem w.
  apply (GetPWM_partial_update faulty_bus pca9685_header faulty_handle_40 0
           0%nat 1%nat w 0x34 0x02 (mem, 1%nat) (mem, 0%nat));
    [reflexivity | lia | lia | reflexivity | reflexivity | left; reflexivity].
Defined.

(** ** Further runs on the chip's register map *)

(** Sleep, WakeUp and Reset on the persistent device: 0x21 becomes 0x31,
    0x31 becomes 0x21, 0x21 becomes 0xA1. *)
Example mode1_runs :
  device_reg (bus (after (PCA9685_Sleep pca9685_header (Some handle_40))
                     (world_of (<[(0x40, 0x00) := 0x21]> ∅)))) 0x40 0x00 = 0x31
  /\ device_reg (bus (after (PCA9685_WakeUp pca9685_header (Some handle_40))
                        (world_of (<[(0x40, 0x00) := 0x31]> ∅)))) 0x40 0x00 = 0x21
  /\ device_reg (bus (after (PCA9685_Reset pca9685_header (Some handle_40))
                        (world_of (<[(0x40, 0x00) := 0x21]> ∅)))) 0x40 0x00 = 0xA1.
Proof. repeat split; vm_compute; reflexivity. Qed.

(** SetAllPWM(4095, 0) writes 0xFF, 0x0F to ALL-LED-ON and 0x00, 0x00 to
    ALL-LED-OFF, and GetAllPWM reads (4095, 0) back. *)
Example all_pwm_run :
  let w1 := after (PCA9685_SetAllPWM pca9685_header (Some handle_40) 4095 0) (world_of ∅) in
  let w2 := after (PCA9685_GetAllPWM pca9685_header (Some handle_40)
                     (Some 0%nat) (Some 1%nat)) w1 in
  calls w1 = [CallWrite 0 0x40 1 0xFA 1 0xFF; CallWrite 0 0x40 1 0xFB 1 0x0F;
              CallWrite 0 0x40 1 0xFC 1 0x00; CallWrite 0 0x40 1 0xFD 1 0x00]
  /\ cells w2 !! 0%nat = Some 4095
  /\ cells w2 !! 1%nat = Some 0.
Proof. repeat split; vm_compute; reflexivity. Qed.

(** When both output pointers of GetPWM designate the same cell, the cell
    ends up holding the off-value: the store of the on-value is overwritten.
    This is why the statements about the two outputs take distinct cells. *)
Example GetPWM_same_cell :
  let w1 := after (PCA9685_SetPWM pca9685_header (Some handle_40) 0 0x234 0x567)
                  (world_of ∅) in
  let w2 := after (PCA9685_GetPWM pca9685_header (Some handle_40) 0
                     (Some 0%nat) (Some 0%nat)) w1 in
  cells w2 !! 0%nat = Some 0x567.
Proof. vm_compute. reflexivity. Qed.

(** * Further properties of the driver *)

(** ** NULL arguments *)

(** Every function of the file returns the error code and leaves the world
    as it was when its handle is NULL. *)
Theorem null_handle_rejected :
  forall (T : Transport) (hdr : Header) (w : World T)
         (reg data a dev v ch on off : Z) (p8 : option Z) (p q : option nat),
    PCA9685WriteReg (T := T) hdr None reg data w = (PCA9685LIB_ERROR, w)
    /\ PCA9685ReadReg (T := T) hdr None reg p8 w = ((PCA9685LIB_ERROR, p8), w)
    /\ PCA9685_Init (T := T) None a dev w = ((PCA9685LIB_ERROR, None), w)
    /\ PCA9685_GetMode1Reg T hdr None p8 w = ((PCA9685LIB_ERROR, p8), w)
    /\ PCA9685_SetMode1Reg T hdr None v w = (PCA9685LIB_ERROR, w)
    /\ PCA9685_GetMode2Reg T hdr None p8 w = ((PCA9685LIB_ERROR, p8), w)
    /\ PCA9685_SetMode2Reg T hdr None v w = (PCA9685LIB_ERROR, w)
    /\ PCA9685_GetPrescaler T hdr None p8 w = ((PCA9685LIB_ERROR, p8), w)
    /\ PCA9685_SetPrescaler (T := T) hdr None v w = (PCA9685LIB_ERROR, w)
    /\ PCA9685_GetPWM (T := T) hdr None ch p q w = (PCA9685LIB_ERROR, w)
    /\ PCA9685_SetPWM (T := T) hdr None ch on off w = (PCA9685LIB_ERROR, w)
    /\ PCA9685_GetAllPWM (T := T) hdr None p q w = (PCA9685LIB_ERROR, w)
    /\ PCA9685_SetAllPWM (T := T) hdr None on off w = (PCA9685LIB_ERROR, w)
    /\ PCA9685_Reset (T := T) hdr None w = (PCA9685LIB_ERROR, w)
    /\ PCA9685_Sleep (T := T) hdr None w = (PCA9685LIB_ERROR, w)
    /\ PCA9685_WakeUp (T := T) hdr None w = (PCA9685LIB_ERROR, w)
    /\ PCA9685_EnableOutput (T := T) hdr None w = (PCA9685LIB_ERROR, w)
    /\ PCA9685_DisableOutput (T := T) hdr None w = (PCA9685LIB_ERROR, w)
    /\ PCA9685_SetOutputInversion (T := T) hdr None v w = (PCA9685LIB_ERROR, w)
    /\ PCA9685_Close T None w = (PCA9685LIB_ERROR, w).
Proof.
  intros. repeat split; reflexivity.
Qed.

(** Every function that takes an output pointer returns the error code and
    leaves the world as it was when one of its output pointers is NULL. *)
Theorem null_output_rejected :
  forall (T : Transport) (hdr : Header) (conf : option (PCA9685I2CConf_t T))
         (w : World T) (reg ch : Z) (p : option nat),
    PCA9685ReadReg hdr conf reg None w = ((PCA9685LIB_ERROR, None), w)
    /\ PCA9685_GetMode1Reg T hdr conf None w = ((PCA9685LIB_ERROR, None), w)
    /\ PCA9685_GetMode2Reg T hdr conf None w = ((PCA9685LIB_ERROR, None), w)
    /\ PCA9685_GetPrescaler T hdr conf None w = ((PCA9685LIB_ERROR, None), w)
    /\ PCA9685_GetPWM hdr conf ch None p w = (PCA9685LIB_ERROR, w)
    /\ PCA9685_GetPWM hdr conf ch p None w = (PCA9685LIB_ERROR, w)
    /\ PCA9685_GetAllPWM hdr conf None p w = (PCA9685LIB_ERROR, w)
    /\ PCA9685_GetAllPWM hdr conf p None w = (PCA9685LIB_ERROR, w).
Proof.
  intros. repeat split; destruct conf; try destruct p; reflexivity.
Qed.

(** ** When the access primitives succeed *)

(** A register access succeeds exactly when the handle is not NULL, the
    register is outside the forbidden region and is not the test-mode
    register, and the transport reports success for the transfer. *)
Theorem register_access_success_iff :
  forall (T : Transport) (hdr : Header) (conf : option (PCA9685I2CConf_t T))
         (reg data old : Z) (w : World T),
    (result (PCA9685WriteReg hdr conf reg data) w = PCA9685LIB_SUCCESS
     <-> exists c, conf = Some c
                   /\ legal_reg hdr reg = true
                   /\ fst (i2cWrite T (i2cConf c) (i2cAddr c) 1 reg 1 data (bus w))
                      = US_I2C_SUCCESS)
    /\ (fst (result (PCA9685ReadReg hdr conf reg (Some old)) w) = PCA9685LIB_SUCCESS
        <-> exists c, conf = Some c
                      /\ legal_reg hdr reg = true
                      /\ fst (fst (i2cRead T (i2cConf c) (i2cAddr c) 1 reg 1 old (bus w)))
                         = US_I2C_SUCCESS).
Proof.
  intros T hdr conf reg data old w. unfold result. split; split.
  - destruct conf as [c |]; [| discriminate].
    intros H. exists c. split; [reflexivity |].
    destruct (legal_reg hdr reg) eqn:Hl.
    + rewrite WriteReg_legal in H by exact Hl. cbn [fst] in H.
      split; [reflexivity |].
      destruct (fst (i2cWrite T _ _ _ _ _ _ _)); [reflexivity | discriminate].
    + unfold PCA9685WriteReg in H. unfold legal_reg in Hl.
      apply negb_false_iff in Hl. rewrite Hl in H. discriminate.
  - intros (c & -> & Hl & Hw). rewrite WriteReg_legal by exact Hl.
    cbn [fst]. rewrite Hw. reflexivity.
  - destruct conf as [c |]; [| discriminate].
    intros H. exists c. split; [reflexivity |].
    destruct (legal_reg hdr reg) eqn:Hl.
    + rewrite ReadReg_legal in H by exact Hl. cbn [fst] in H.
      split; [reflexivity |].
      destruct (fst (fst (i2cRead T _ _ _ _ _ _ _))); [reflexivity | discriminate].
    + unfold PCA9685ReadReg in H. unfold legal_reg in Hl.
      apply negb_false_iff in Hl. rewrite Hl in H. discriminate.
  - intros (c & -> & Hl & Hr). rewrite ReadReg_legal by exact Hl.
    cbn [fst]. rewrite Hr. reflexivity.
Qed.

(** ** Which transport calls an operation can issue *)

Section Issues.

Context {T : Transport}.

Lemma issues_ret {A : Type} (P : I2cCall (I2cConf T) -> Prop) (a : A) :
  issues P 0 (ret a).
Proof.
  intros w. exists []. cbn. rewrite app_nil_r. repeat split; [constructor | lia].
Qed.

Lemma issues_mono {A : Type} (P : I2cCall (I2cConf T) -> Prop) (n n' : nat) (m : M T A) :
  (n <= n')%nat -> issues P n m -> issues P n' m.
Proof.
  intros Hn Hm w. destruct (Hm w) as (l & E & HP & Hl).
  exists l. repeat split; [exact E | exact HP | lia].
Qed.

Lemma issues_bind {A B : Type} (P : I2cCall (I2cConf T) -> Prop) (n k : nat)
    (m : M T A) (f : A -> M T B) :
  issues P n m -> (forall a, issues P k (f a)) -> issues P (n + k) (bind m f).
Proof.
  intros Hm Hf w. unfold bind.
  destruct (Hm w) as (l1 & E1 & HP1 & Hl1).
  destruct (m w) as [a w1]. cbn [snd] in E1.
  destruct (Hf a w1) as (l2 & E2 & HP2 & Hl2).
  exists (l1 ++ l2). repeat split.
  - rewrite E2, E1, app_assoc. reflexivity.
  - apply Forall_app. split; assumption.
  - rewrite length_app. lia.
Qed.

Lemma issues_orfail (P : I2cCall (I2cConf T) -> Prop) (n k : nat)
    (m km : M T LibStatus) :
  issues P n m -> issues P k km -> issues P (n + k) (orfail m km).
Proof.
  intros Hm Hk. unfold orfail. apply issues_bind; [exact Hm |].
  intros [|]; [exact Hk |].
  apply (issues_mono P 0); [lia | apply issues_ret].
Qed.

Lemma issues_orfail_read (P : I2cCall (I2cConf T) -> Prop) (n k : nat)
    (m : M T (LibStatus * option Z)) (old : Z) (f : Z -> M T LibStatus) :
  issues P n m -> (forall v, issues P k (f v)) -> issues P (n + k) (orfail_read m old f).
Proof.
  intros Hm Hf. unfold orfail_read. apply issues_bind; [exact Hm |].
  intros [[|] d]; cbn [fst snd]; [apply Hf |].
  apply (issues_mono P 0); [lia | apply issues_ret].
Qed.

Lemma issues_store16 (P : I2cCall (I2cConf T) -> Prop) (p : nat) (v : Z) :
  issues P 0 (store16 T p v).
Proof.
  intros w. exists []. cbn. rewrite app_nil_r. repeat split; [constructor | lia].
Qed.

Lemma issues_WriteReg (hdr : Header) (c : PCA9685I2CConf_t T) (reg data : Z) :
  issues (is_write_of c) 1 (PCA9685WriteReg hdr (Some c) reg data).
Proof.
  intros w. destruct (legal_reg hdr reg) eqn:Hl.
  - rewrite WriteReg_legal by exact Hl. cbn [snd calls].
    eexists. split; [reflexivity |]. split; [| cbn; lia].
    repeat constructor.
  - unfold PCA9685WriteReg. unfold legal_reg in Hl.
    apply negb_false_iff in Hl. rewrite Hl.
    exists []. cbn. rewrite app_nil_r. repeat split; [constructor | lia].
Qed.

Lemma issues_ReadReg (hdr : Header) (c : PCA9685I2CConf_t T) (reg : Z) (data : option Z) :
  issues (is_read_of c) 1 (PCA9685ReadReg hdr (Some c) reg data).
Proof.
  intros w. destruct data as [old |].
  - destruct (legal_reg hdr reg) eqn:Hl.
    + rewrite ReadReg_legal by exact Hl. cbn [snd calls].
      eexists. split; [reflexivity |]. split; [| cbn; lia].
      repeat constructor.
    + unfold PCA9685ReadReg. unfold legal_reg in Hl.
      apply negb_false_iff in Hl. rewrite Hl.
      exists []. cbn. rewrite app_nil_r. repeat split; [constructor | lia].
  - exists []. cbn. rewrite app_nil_r. repeat split; [constructor | lia].
Qed.

End Issues.

(** The functions that read the device never issue a write: through a valid
    handle, each call they issue is a single-byte read through that handle
    to the device address stored in it, one at most for the mode registers
    and the prescaler, four at most for a PWM pair. *)
Theorem getters_only_read :
  forall (T : Transport) (hdr : Header) (c : PCA9685I2CConf_t T)
         (ch : Z) (p8 : option Z) (p q : option nat),
    issues (is_read_of c) 1 (PCA9685_GetMode1Reg T hdr (Some c) p8)
    /\ issues (is_read_of c) 1 (PCA9685_GetMode2Reg T hdr (Some c) p8)
    /\ issues (is_read_of c) 1 (PCA9685_GetPrescaler T hdr (Some c) p8)
    /\ issues (is_read_of c) 4 (PCA9685_GetPWM hdr (Some c) ch p q)
    /\ issues (is_read_of c) 4 (PCA9685_GetAllPWM hdr (Some c) p q).
Proof.
  intros T hdr c ch p8 p q. repeat split.
  - unfold PCA9685_GetMode1Reg. destruct p8; cbn [is_null orb].
    + apply (issues_bind _ 1 0); [apply issues_ReadReg |].
      intros [[|] d]; apply issues_ret.
    + apply (issues_mono _ 0); [lia | apply issues_ret].
  - unfold PCA9685_GetMode2Reg. destruct p8; cbn [is_null orb].
    + apply (issues_bind _ 1 0); [apply issues_ReadReg |].
      intros [[|] d]; apply issues_ret.
    + apply (issues_mono _ 0); [lia | apply issues_ret].
  - unfold PCA9685_GetPrescaler. destruct p8; cbn [is_null orb].
    + apply (issues_bind _ 1 0); [apply issues_ReadReg |].
      intros [[|] d]; apply issues_ret.
    + apply (issues_mono _ 0); [lia | apply issues_ret].
  - unfold PCA9685_GetPWM.
    destruct p, q; try (apply (issues_mono _ 0); [lia | apply issues_ret]).
    destruct (PCA9685_MAX_PWM_CHANNELS hdr <? ch);
      [apply (issues_mono _ 0); [lia | apply issues_ret] |].
    apply (issues_orfail_read _ 1 3); [apply issues_ReadReg | intros l].
    apply (issues_orfail_read _ 1 2); [apply issues_ReadReg | intros h].
    apply (issues_bind _ 0 2); [apply issues_store16 | intros _].
    apply (issues_orfail_read _ 1 1); [apply issues_ReadReg | intros l'].
    apply (issues_orfail_read _ 1 0); [apply issues_ReadReg | intros h'].
    apply (issues_bind _ 0 0); [apply issues_store16 | intros _].
    apply issues_ret.
  - unfold PCA9685_GetAllPWM.
    destruct p, q; try (apply (issues_mono _ 0); [lia | apply issues_ret]).
    apply (issues_orfail_read _ 1 3); [apply issues_ReadReg | intros l].
    apply (issues_orfail_read _ 1 2); [apply issues_ReadReg | intros h].
    apply (issues_bind _ 0 2); [apply issues_store16 | intros _].
    apply (issues_orfail_read _ 1 1); [apply issues_ReadReg | intros l'].
    apply (issues_orfail_read _ 1 0); [apply issues_ReadReg | intros h'].
    apply (issues_bind _ 0 0); [apply issues_store16 | intros _].
    apply issues_ret.
Qed.

(** The functions that set a register or a PWM pair never issue a read:
    through a valid handle, each call they issue is a single-byte write
    through that handle to the device address stored in it, one at most for
    the mode registers and the prescaler, four at most for a PWM pair. *)
Theorem setters_only_write :
  forall (T : Transport) (hdr : Header) (c : PCA9685I2CConf_t T) (v ch on off : Z),
    issues (is_write_of c) 1 (PCA9685_SetMode1Reg T hdr (Some c) v)
    /\ issues (is_write_of c) 1 (PCA9685_SetMode2Reg T hdr (Some c) v)
    /\ issues (is_write_of c) 1 (PCA9685_SetPrescaler hdr (Some c) v)
    /\ issues (is_write_of c) 4 (PCA9685_SetPWM hdr (Some c) ch on off)
    /\ issues (is_write_of c) 4 (PCA9685_SetAllPWM hdr (Some c) on off).
Proof.
  intros T hdr c v ch on off. repeat split.
  - unfold PCA9685_SetMode1Reg. cbn [is_null].
    apply (issues_orfail _ 1 0); [apply issues_WriteReg | apply issues_ret].
  - unfold PCA9685_SetMode2Reg. cbn [is_null].
    apply (issues_orfail _ 1 0); [apply issues_WriteReg | apply issues_ret].
  - unfold PCA9685_SetPrescaler. cbn [is_null].
    apply (issues_orfail _ 1 0); [apply issues_WriteReg | apply issues_ret].
  - unfold PCA9685_SetPWM. cbn [is_null].
    destruct (PCA9685_MAX_PWM_CHANNELS hdr <? ch);
      [apply (issues_mono _ 0); [lia | apply issues_ret] |].
    destruct ((PCA9685_MAX_PWM_VALUE hdr <? on) || (PCA9685_MAX_PWM_VALUE hdr <? off));
      [apply (issues_mono _ 0); [lia | apply issues_ret] |].
    apply (issues_orfail _ 1 3); [apply issues_WriteReg |].
    apply (issues_orfail _ 1 2); [apply issues_WriteReg |].
    apply (issues_orfail _ 1 1); [apply issues_WriteReg |].
    apply (issues_orfail _ 1 0); [apply issues_WriteReg | apply issues_ret].
  - unfold PCA9685_SetAllPWM. cbn [is_null].
    destruct ((PCA9685_MAX_PWM_VALUE hdr <? on) || (PCA9685_MAX_PWM_VALUE hdr <? off));
      [apply (issues_mono _ 0); [lia | apply issues_ret] |].
    apply (issues_orfail _ 1 3); [apply issues_WriteReg |].
    apply (issues_orfail _ 1 2); [apply issues_WriteReg |].
    apply (issues_orfail _ 1 1); [apply issues_WriteReg |].
    apply (issues_orfail _ 1 0); [apply issues_WriteReg | apply issues_ret].
Qed.

Lemma rmw_log {T : Transport} (hdr : Header) (c : PCA9685I2CConf_t T)
    (rreg wreg : Z) (change : Z -> Z) (w : World T) :
  exists l, calls (after (rmw hdr c rreg wreg change) w) = calls w ++ l
            /\ cells (after (rmw hdr c rreg wreg change) w) = cells w
            /\ rmw_shape c rreg wreg change w l.
Proof.
  unfold after, rmw, orfail_read, orfail, bind, rmw_shape.
  destruct (legal_reg hdr rreg) eqn:Hr.
  - rewrite ReadReg_legal by exact Hr.
    destruct (i2cRead T (i2cConf c) (i2cAddr c) 1 rreg 1 0 (bus w)) as [[[|] v] b1].
    + cbn [fst snd pointee]. destruct (legal_reg hdr wreg) eqn:Hw.
      * rewrite WriteReg_legal by exact Hw. cbn [bus calls cells].
        eexists. split; [| split; [| right; right; split; reflexivity]].
        -- destruct (fst (i2cWrite T _ _ _ _ _ _ _)); cbn [snd calls];
             rewrite <- app_assoc; reflexivity.
        -- destruct (fst (i2cWrite T _ _ _ _ _ _ _)); reflexivity.
      * unfold PCA9685WriteReg. unfold legal_reg in Hw.
        apply negb_false_iff in Hw. rewrite Hw. cbn.
        eexists. split; [reflexivity |]. split; [reflexivity |].
        right; left; reflexivity.
    + cbn. eexists. split; [reflexivity |]. split; [reflexivity |].
      right; left; reflexivity.
  - unfold PCA9685ReadReg. unfold legal_reg in Hr.
    apply negb_false_iff in Hr. rewrite Hr. cbn.
    exists []. rewrite app_nil_r. split; [reflexivity |]. split; [reflexivity |].
    left; reflexivity.
Qed.

(** Each of the six read-modify-write functions issues at most one read
    followed by at most one write and touches no output cell: a write is
    issued only after the read, only when the transport reported success for
    the read, is the last call, and carries the byte that was read with the
    bit-field stored into it. Reset, Sleep and
    WakeUp read and write the Mode1 address; EnableOutput, DisableOutput and
    SetOutputInversion read the Mode2 address and write the Mode1 address. *)
Theorem read_modify_write_calls :
  forall (T : Transport) (hdr : Header) (c : PCA9685I2CConf_t T) (invrt : Z) (w : World T),
    let mode1 := PCA9685_MODE1_REG_ADDR hdr in
    let mode2 := PCA9685_MODE2_REG_ADDR hdr in
    let runs (m : M T LibStatus) rreg change :=
      exists l, calls (after m w) = calls w ++ l
                /\ cells (after m w) = cells w
                /\ rmw_shape c rreg mode1 change w l in
    runs (PCA9685_Reset hdr (Some c)) mode1 (bf_store (mode1_restart hdr) 1)
    /\ runs (PCA9685_Sleep hdr (Some c)) mode1 (bf_store (mode1_sleep hdr) 1)
    /\ runs (PCA9685_WakeUp hdr (Some c)) mode1 (bf_store (mode1_sleep hdr) 0)
    /\ runs (PCA9685_EnableOutput hdr (Some c)) mode2 (bf_store (mode2_outne hdr) 0)
    /\ runs (PCA9685_DisableOutput hdr (Some c)) mode2 (bf_store (mode2_outne hdr) 3)
    /\ runs (PCA9685_SetOutputInversion hdr (Some c) invrt) mode2
            (bf_store (mode2_invrt hdr) invrt).
Proof.
  intros T hdr c invrt w mode1 mode2 runs. subst runs mode1 mode2. cbv beta.
  rewrite Reset_rmw, Sleep_rmw, WakeUp_rmw, EnableOutput_rmw, DisableOutput_rmw,
    SetOutputInversion_rmw.
  repeat split; apply rmw_log.
Qed.

(** ** Success of the four-register writes *)

Section WriteSequenceResult.

Context {T : Transport} (hdr : Header) (c : PCA9685I2CConf_t T).

Lemma write_seq_success_iff (ws : list (Z * Z)) :
  Forall (fun rd => legal_reg hdr (fst rd) = true) ws ->
  forall w : World T,
    result (write_seq hdr (Some c) ws) w = PCA9685LIB_SUCCESS
    <-> is_Some (transfer_all (i2cConf c) (i2cAddr c) ws (bus w)).
Proof.
  induction 1 as [| rd ws Hrd Hws IH]; intros w.
  - cbn. split; [eauto | reflexivity].
  - unfold result. cbn [write_seq transfer_all]. unfold orfail, bind.
    rewrite WriteReg_legal by exact Hrd.
    destruct (i2cWrite T (i2cConf c) (i2cAddr c) 1 (fst rd) 1 (snd rd) (bus w))
      as [[|] s'] eqn:Hw; cbn [fst snd].
    + rewrite <- (IH {| bus := s';
                        calls := calls w ++ [CallWrite (i2cConf c) (i2cAddr c) 1
                                               (fst rd) 1 (snd rd)];
                        cells := cells w |}).
      reflexivity.
    + cbn. split; [discriminate | intros [? ?]; discriminate].
Qed.

Lemma SetAllPWM_write_seq (on off : Z) :
  all_led_ok hdr = true -> on <= 4095 -> off <= 4095 ->
  PCA9685_SetAllPWM hdr (Some c) on off
  = write_seq hdr (Some c) (all_pwm_writes hdr on off).
Proof.
  intros Hok Hon Hoff. unfold all_led_ok in Hok.
  repeat (let H' := fresh "Hall" in apply andb_prop in Hok; destruct Hok as [Hok H']).
  apply Z.eqb_eq in Hok.
  unfold PCA9685_SetAllPWM. cbn [is_null].
  replace (PCA9685_MAX_PWM_VALUE hdr <? on) with false
    by (symmetry; apply Z.ltb_ge; lia).
  replace (PCA9685_MAX_PWM_VALUE hdr <? off) with false
    by (symmetry; apply Z.ltb_ge; lia).
  reflexivity.
Qed.

Lemma all_pwm_writes_legal (on off : Z) :
  all_led_ok hdr = true ->
  Forall (fun rd => legal_reg hdr (fst rd) = true) (all_pwm_writes hdr on off).
Proof.
  intros Hok. unfold all_led_ok in Hok.
  repeat (let H' := fresh "Hall" in apply andb_prop in Hok; destruct Hok as [Hok H']).
  unfold all_pwm_writes. repeat constructor; cbn [fst]; assumption.
Qed.

End WriteSequenceResult.

(** With a valid handle and a channel index that is not negative, SetPWM
    succeeds exactly when the channel index is at most 15, both values are
    at most 4095 and the transport carries all four writes; the log then
    holds exactly these four writes and the bus is left as the last of them
    left it. *)
Theorem SetPWM_success_iff :
  forall (T : Transport) (hdr : Header) (c : PCA9685I2CConf_t T) (ch on off : Z)
         (w : World T),
    header_ok hdr = true ->
    0 <= ch ->
    let transfers :=
      transfer_all (i2cConf c) (i2cAddr c) (pwm_writes hdr ch on off) (bus w) in
    (result (PCA9685_SetPWM hdr (Some c) ch on off) w = PCA9685LIB_SUCCESS
     <-> ch <= 15 /\ on <= 4095 /\ off <= 4095 /\ is_Some transfers)
    /\ (forall b, ch <= 15 -> on <= 4095 -> off <= 4095 -> transfers = Some b ->
        after (PCA9685_SetPWM hdr (Some c) ch on off) w
        = {| bus := b;
             calls := calls w ++ map (write_call c) (pwm_writes hdr ch on off);
             cells := cells w |}).
Proof.
  intros T hdr c ch on off w Hok Hch transfers. subst transfers.
  assert (Hok' := Hok). header_facts Hok'.
  split; [split |].
  - intros Hres.
    destruct (Z.le_gt_cases ch 15) as [Hc | Hc].
    + destruct (Z.le_gt_cases on 4095) as [Hon | Hon].
      * destruct (Z.le_gt_cases off 4095) as [Hoff | Hoff].
        -- repeat split; try assumption.
           rewrite SetPWM_write_seq in Hres by assumption.
           apply write_seq_success_iff in Hres; [exact Hres |].
           apply pwm_writes_legal; [assumption | lia].
        -- exfalso. unfold result, PCA9685_SetPWM in Hres. cbn [is_null] in Hres.
           replace (PCA9685_MAX_PWM_VALUE hdr <? off) with true in Hres
             by (symmetry; apply Z.ltb_lt; lia).
           rewrite orb_true_r in Hres.
           destruct (PCA9685_MAX_PWM_CHANNELS hdr <? ch); discriminate.
      * exfalso. unfold result, PCA9685_SetPWM in Hres. cbn [is_null] in Hres.
        replace (PCA9685_MAX_PWM_VALUE hdr <? on) with true in Hres
          by (symmetry; apply Z.ltb_lt; lia).
        cbn [orb] in Hres.
        destruct (PCA9685_MAX_PWM_CHANNELS hdr <? ch); discriminate.
    + exfalso. unfold result, PCA9685_SetPWM in Hres. cbn [is_null] in Hres.
      replace (PCA9685_MAX_PWM_CHANNELS hdr <? ch) with true in Hres
        by (symmetry; apply Z.ltb_lt; lia).
      discriminate.
  - intros (Hc & Hon & Hoff & Hall).
    rewrite SetPWM_write_seq by assumption.
    apply write_seq_success_iff; [| exact Hall].
    apply pwm_writes_legal; [assumption | lia].
  - intros b Hc Hon Hoff Hall. unfold after.
    rewrite SetPWM_write_seq by assumption.
    rewrite (write_seq_success hdr c _ (pwm_writes_legal hdr ch on off Hok (conj Hch Hc))
               w b Hall).
    reflexivity.
Qed.

(** With a valid handle, SetAllPWM succeeds exactly when both values are at
    most 4095 and the transport carries all four writes to the ALL_LED
    registers; the log then holds exactly these four writes. *)
Theorem SetAllPWM_success_iff :
  forall (T : Transport) (hdr : Header) (c : PCA9685I2CConf_t T) (on off : Z)
         (w : World T),
    all_led_ok hdr = true ->
    let transfers :=
      transfer_all (i2cConf c) (i2cAddr c) (all_pwm_writes hdr on off) (bus w) in
    (result (PCA9685_SetAllPWM hdr (Some c) on off) w = PCA9685LIB_SUCCESS
     <-> on <= 4095 /\ off <= 4095 /\ is_Some transfers)
    /\ (forall b, on <= 4095 -> off <= 4095 -> transfers = Some b ->
        after (PCA9685_SetAllPWM hdr (Some c) on off) w
        = {| bus := b;
             calls := calls w ++ map (write_call c) (all_pwm_writes hdr on off);
             cells := cells w |}).
Proof.
  intros T hdr c on off w Hok transfers. subst transfers.
  assert (Hmax : PCA9685_MAX_PWM_VALUE hdr = 4095).
  { unfold all_led_ok in Hok.
    repeat (let H' := fresh "Hall" in apply andb_prop in Hok; destruct Hok as [Hok H']).
    apply Z.eqb_eq in Hok. exact Hok. }
  split; [split |].
  - intros Hres.
    destruct (Z.le_gt_cases on 4095) as [Hon | Hon].
    + destruct (Z.le_gt_cases off 4095) as [Hoff | Hoff].
      * repeat split; try assumption.
        rewrite SetAllPWM_write_seq in Hres by assumption.
        apply write_seq_success_iff in Hres; [exact Hres |].
        apply all_pwm_writes_legal. assumption.
      * exfalso. unfold result, PCA9685_SetAllPWM in Hres. cbn [is_null] in Hres.
        replace (PCA9685_MAX_PWM_VALUE hdr <? off) with true in Hres
          by (symmetry; apply Z.ltb_lt; lia).
        rewrite orb_true_r in Hres. discriminate.
    + exfalso. unfold result, PCA9685_SetAllPWM in Hres. cbn [is_null] in Hres.
      replace (PCA9685_MAX_PWM_VALUE hdr <? on) with true in Hres
        by (symmetry; apply Z.ltb_lt; lia).
      discriminate.
  - intros (Hon & Hoff & Hall).
    rewrite SetAllPWM_write_seq by assumption.
    apply write_seq_success_iff; [| exact Hall].
    apply all_pwm_writes_legal. assumption.
  - intros b Hon Hoff Hall. unfold after.
    rewrite SetAllPWM_write_seq by assumption.
    rewrite (write_seq_success hdr c _ (all_pwm_writes_legal hdr on off Hok) w b Hall).
    reflexivity.
Qed.

(** Let write number [k] (counted from 0) of the four writes of SetAllPWM
    be the first one the transport fails. Then SetAllPWM returns the error
    code, the calls issued are the writes up to and including the failing
    one, and the bus is left as the failing transfer left it: the ALL_LED
    registers already written stay written. *)
Theorem SetAllPWM_aborts_without_rollback :
  forall (T : Transport) (hdr : Header) (c : PCA9685I2CConf_t T) (on off : Z)
         (k : nat) (rd : Z * Z) (w : World T) (b1 b2 : BusState T),
    all_led_ok hdr = true ->
    on <= 4095 -> off <= 4095 ->
    all_pwm_writes hdr on off !! k = Some rd ->
    transfer_all (i2cConf c) (i2cAddr c) (take k (all_pwm_writes hdr on off)) (bus w)
      = Some b1 ->
    i2cWrite T (i2cConf c) (i2cAddr c) 1 (fst rd) 1 (snd rd) b1 = (US_I2C_ERROR, b2) ->
    PCA9685_SetAllPWM hdr (Some c) on off w =
    (PCA9685LIB_ERROR,
     {| bus := b2;
        calls := calls w ++ map (write_call c) (take (S k) (all_pwm_writes hdr on off));
        cells := cells w |}).
Proof.
  intros T hdr c on off k rd w b1 b2 Hok Hon Hoff Hk Hall Hfail.
  rewrite SetAllPWM_write_seq by assumption.
  apply (write_seq_failure hdr c _ (all_pwm_writes_legal hdr on off Hok)
           k rd w b1 b2); assumption.
Qed.

(** ** The ALL_LED group on the persistent device *)

Ltac all_led_facts H :=
  unfold all_led_ok in H;
  repeat (let H' := fresh "Hall" in apply andb_prop in H; destruct H as [H H']);
  repeat match goal with
    | X : (_ =? _) = true |- _ => apply Z.eqb_eq in X
    end.

Section PersistentAll.

Variable hdr : Header.
Variable c : PCA9685I2CConf_t persistent_bus.

Lemma SetAllPWM_persistent (on off : Z) (w : World persistent_bus) :
  all_led_ok hdr = true -> on <= 4095 -> off <= 4095 ->
  PCA9685_SetAllPWM hdr (Some c) on off w =
  (PCA9685LIB_SUCCESS,
   {| bus := <[(i2cAddr c, PCA9685_ALL_LED_OFF_H_REG_ADDR hdr) := to_u8 (Z.shiftr off 8)]>
               (<[(i2cAddr c, PCA9685_ALL_LED_OFF_L_REG_ADDR hdr) := to_u8 off]>
                  (<[(i2cAddr c, PCA9685_ALL_LED_ON_H_REG_ADDR hdr) := to_u8 (Z.shiftr on 8)]>
                     (<[(i2cAddr c, PCA9685_ALL_LED_ON_L_REG_ADDR hdr) := to_u8 on]>
                        (bus w))));
      calls := calls w ++ map (write_call c) (all_pwm_writes hdr on off);
      cells := cells w |}).
Proof.
  intros Hok Hon Hoff.
  rewrite SetAllPWM_write_seq by assumption.
  apply write_seq_success; [apply all_pwm_writes_legal; assumption | reflexivity].
Qed.

Lemma GetAllPWM_persistent (pOn pOff : nat) (w : World persistent_bus) :
  all_led_ok hdr = true ->
  let reg r := device_reg (bus w) (i2cAddr c) r in
  PCA9685_GetAllPWM hdr (Some c) (Some pOn) (Some pOff) w =
  (PCA9685LIB_SUCCESS,
   {| bus := bus w;
      calls := calls w ++
               [CallRead (i2cConf c) (i2cAddr c) 1 (PCA9685_ALL_LED_ON_L_REG_ADDR hdr) 1;
                CallRead (i2cConf c) (i2cAddr c) 1 (PCA9685_ALL_LED_ON_H_REG_ADDR hdr) 1;
                CallRead (i2cConf c) (i2cAddr c) 1 (PCA9685_ALL_LED_OFF_L_REG_ADDR hdr) 1;
                CallRead (i2cConf c) (i2cAddr c) 1 (PCA9685_ALL_LED_OFF_H_REG_ADDR hdr) 1];
      cells := <[pOff := to_u16 (Z.lor (Z.shiftl (reg (PCA9685_ALL_LED_OFF_H_REG_ADDR hdr)) 8)
                                       (reg (PCA9685_ALL_LED_OFF_L_REG_ADDR hdr)))]>
                 (<[pOn := to_u16 (Z.lor (Z.shiftl (reg (PCA9685_ALL_LED_ON_H_REG_ADDR hdr)) 8)
                                         (reg (PCA9685_ALL_LED_ON_L_REG_ADDR hdr)))]>
                    (cells w)) |}).
Proof.
  intros Hok reg. subst reg. all_led_facts Hok.
  unfold PCA9685_GetAllPWM, orfail_read, bind.
  rewrite ReadReg_persistent by assumption. cbn [fst snd pointee].
  rewrite ReadReg_persistent by assumption. cbn [fst snd pointee bus calls cells].
  unfold store16. cbn [bus calls cells].
  rewrite ReadReg_persistent by assumption. cbn [fst snd pointee bus calls cells].
  rewrite ReadReg_persistent by assumption. cbn [fst snd pointee bus calls cells].
  unfold ret. rewrite <- !app_assoc. reflexivity.
Qed.

End PersistentAll.

(** On the persistent device, for an on-value and an off-value in
    [0,4095], SetAllPWM followed by GetAllPWM both succeed and GetAllPWM
    leaves exactly the pair that was set in its two (distinct) output
    cells. *)
Theorem SetAllPWM_GetAllPWM_roundtrip :
  forall (hdr : Header) (conf : PCA9685I2CConf_t persistent_bus) (on off : Z)
         (onValue offValue : nat) (w : World persistent_bus),
    all_led_ok hdr = true ->
    0 <= on <= 4095 -> 0 <= off <= 4095 ->
    onValue <> offValue ->
    let w1 := after (PCA9685_SetAllPWM hdr (Some conf) on off) w in
    let w2 := after (PCA9685_GetAllPWM hdr (Some conf) (Some onValue) (Some offValue)) w1 in
    result (PCA9685_SetAllPWM hdr (Some conf) on off) w = PCA9685LIB_SUCCESS
    /\ result (PCA9685_GetAllPWM hdr (Some conf) (Some onValue) (Some offValue)) w1
       = PCA9685LIB_SUCCESS
    /\ cells w2 !! onValue = Some on
    /\ cells w2 !! offValue = Some off.
Proof.
  intros hdr conf on off pOn pOff w Hok Hon Hoff Hne w1 w2.
  subst w2 w1. unfold result, after.
  rewrite SetAllPWM_persistent by (assumption || lia). cbn [fst snd].
  rewrite GetAllPWM_persistent by assumption. cbn [fst snd bus calls cells].
  all_led_facts Hok.
  repeat split.
  - rewrite lookup_insert_ne by (intros E; apply Hne; symmetry; exact E).
    rewrite lookup_insert_eq. f_equal.
    device_lookup. apply merge_split. lia.
  - rewrite lookup_insert_eq. f_equal.
    device_lookup. apply merge_split. lia.
Qed.

(** ** Mode registers and prescaler on the persistent device *)

Lemma differs_only_at_trans (k : Z) (v v' : bool) (m b b' : Z) :
  differs_only_at k v m b -> differs_only_at k v' b b' -> differs_only_at k v' m b'.
Proof.
  intros H1 H2 i Hi. rewrite (H2 i Hi).
  destruct (i =? k) eqn:E; [reflexivity |].
  rewrite (H1 i Hi), E. reflexivity.
Qed.

Lemma differs_only_at_unique (k : Z) (v : bool) (m b b' : Z) :
  differs_only_at k v m b -> differs_only_at k v m b' -> b = b'.
Proof.
  intros H1 H2. apply Z.bits_inj'. intros i Hi.
  rewrite (H1 i Hi), (H2 i Hi). reflexivity.
Qed.

Lemma differs_only_at_same (k : Z) (m b : Z) :
  differs_only_at k (Z.testbit m k) m b -> b = m.
Proof.
  intros H. apply Z.bits_inj'. intros i Hi. rewrite (H i Hi).
  destruct (Z.eqb_spec i k) as [-> | _]; reflexivity.
Qed.

Lemma device_reg_insert_other (s : gmap (Z * Z) Z) (addr reg addr' reg' data : Z) :
  addr <> addr' \/ reg <> reg' ->
  device_reg (<[(addr, reg) := data]> s) addr' reg' = device_reg s addr' reg'.
Proof.
  intros H. unfold device_reg. rewrite lookup_insert_ne; [reflexivity |].
  intros E. injection E as E1 E2. destruct H; contradiction.
Qed.

Section PersistentModes.

Variable hdr : Header.
Variable c : PCA9685I2CConf_t persistent_bus.

Lemma rmw_persistent (rreg wreg : Z) (change : Z -> Z) (w : World persistent_bus) :
  legal_reg hdr rreg = true -> legal_reg hdr wreg = true ->
  bus (after (rmw hdr c rreg wreg change) w)
  = <[(i2cAddr c, wreg) := change (device_reg (bus w) (i2cAddr c) rreg)]> (bus w).
Proof.
  intros Hr Hw.
  rewrite (rmw_world hdr c rreg wreg change w
             (device_reg (bus w) (i2cAddr c) rreg) (bus w) Hr Hw eq_refl).
  reflexivity.
Qed.

End PersistentModes.

(** On the persistent device, a byte set with SetMode1Reg or SetMode2Reg is
    the byte GetMode1Reg, respectively GetMode2Reg, reads back, and after
    SetPrescaler(p) GetPrescaler reads back [p], or 3 when [p] is below 3. *)
Theorem mode_and_prescaler_roundtrip :
  forall (hdr : Header) (c : PCA9685I2CConf_t persistent_bus) (v old : Z)
         (w : World persistent_bus),
    header_ok hdr = true ->
    0 <= v < 256 ->
    result (PCA9685_GetMode1Reg _ hdr (Some c) (Some old))
           (after (PCA9685_SetMode1Reg _ hdr (Some c) v) w)
    = (PCA9685LIB_SUCCESS, Some v)
    /\ result (PCA9685_GetMode2Reg _ hdr (Some c) (Some old))
              (after (PCA9685_SetMode2Reg _ hdr (Some c) v) w)
       = (PCA9685LIB_SUCCESS, Some v)
    /\ result (PCA9685_GetPrescaler _ hdr (Some c) (Some old))
              (after (PCA9685_SetPrescaler hdr (Some c) v) w)
       = (PCA9685LIB_SUCCESS, Some (Z.max 3 v)).
Proof.
  intros hdr c v old w Hok Hv. header_facts Hok.
  unfold result, after.
  unfold PCA9685_GetMode1Reg, PCA9685_SetMode1Reg, PCA9685_GetMode2Reg,
    PCA9685_SetMode2Reg, PCA9685_GetPrescaler, PCA9685_SetPrescaler.
  cbn [is_null orb]. unfold orfail, bind.
  rewrite !WriteReg_persistent by assumption. cbn [fst snd ret].
  unfold ret. cbn [fst snd].
  rewrite !ReadReg_persistent by assumption. cbn [fst snd bus].
  rewrite !device_reg_insert_eq. rewrite to_u8_small by exact Hv.
  repeat split. do 2 f_equal.
  match goal with X : PCA9685_MIN_PRESCALER hdr = 3 |- _ => rewrite X end.
  destruct (Z.ltb_spec v 3); lia.
Qed.

(** On the persistent device whose Mode1 register holds [m]: after Sleep
    it holds [m] with the sleep bit set; after Sleep and then WakeUp it
    holds [m] with the sleep bit cleared, which is [m] itself when the sleep
    bit of [m] was clear; a second Sleep changes nothing. *)
Theorem Sleep_WakeUp_compose :
  forall (hdr : Header) (c : PCA9685I2CConf_t persistent_bus) (w : World persistent_bus),
    header_ok hdr = true ->
    let mode1 (x : World persistent_bus) :=
      device_reg (bus x) (i2cAddr c) (PCA9685_MODE1_REG_ADDR hdr) in
    let k := bf_shift (mode1_sleep hdr) in
    let w1 := after (PCA9685_Sleep hdr (Some c)) w in
    let w2 := after (PCA9685_WakeUp hdr (Some c)) w1 in
    differs_only_at k true (mode1 w) (mode1 w1)
    /\ differs_only_at k false (mode1 w) (mode1 w2)
    /\ (Z.testbit (mode1 w) k = false -> mode1 w2 = mode1 w)
    /\ mode1 (after (PCA9685_Sleep hdr (Some c)) w1) = mode1 w1.
Proof.
  intros hdr c w Hok mode1 k w1 w2.
  assert (Hok' := Hok). header_facts Hok'.
  assert (Hs : forall x, mode1 (after (PCA9685_Sleep hdr (Some c)) x)
                         = bf_store (mode1_sleep hdr) 1 (mode1 x)).
  { intros x. subst mode1. cbv beta. rewrite Sleep_rmw.
    rewrite rmw_persistent by assumption. apply device_reg_insert_eq. }
  assert (Hw : forall x, mode1 (after (PCA9685_WakeUp hdr (Some c)) x)
                         = bf_store (mode1_sleep hdr) 0 (mode1 x)).
  { intros x. subst mode1. cbv beta. rewrite WakeUp_rmw.
    rewrite rmw_persistent by assumption. apply device_reg_insert_eq. }
  assert (D1 : differs_only_at k true (mode1 w) (mode1 w1)).
  { subst w1. rewrite Hs. apply (bf_store_one_bit (mode1_sleep hdr) 1). assumption. }
  assert (D2 : differs_only_at k false (mode1 w) (mode1 w2)).
  { apply (differs_only_at_trans k true false _ (mode1 w1)); [exact D1 |].
    subst w2. rewrite Hw. apply (bf_store_one_bit (mode1_sleep hdr) 0). assumption. }
  repeat split; try assumption.
  - intros Hbit. apply (differs_only_at_same k). rewrite Hbit. exact D2.
  - apply (differs_only_at_unique k true (mode1 w)); [| exact D1].
    apply (differs_only_at_trans k true true _ (mode1 w1)); [exact D1 |].
    rewrite Hs. apply (bf_store_one_bit (mode1_sleep hdr) 1). assumption.
Qed.

(** On the persistent device whose Mode2 register holds [m], each of
    EnableOutput, DisableOutput and SetOutputInversion leaves the Mode2
    register holding [m], and leaves in the Mode1 register the byte
    [m] with the outne field set to 0, respectively to 3, respectively with
    the invrt field set to the argument. *)
Theorem output_control_persistent :
  forall (hdr : Header) (c : PCA9685I2CConf_t persistent_bus) (invrt : Z)
         (w : World persistent_bus),
    header_ok hdr = true ->
    let reg (x : World persistent_bus) r := device_reg (bus x) (i2cAddr c) r in
    let mode1 := PCA9685_MODE1_REG_ADDR hdr in
    let mode2 := PCA9685_MODE2_REG_ADDR hdr in
    let m := reg w mode2 in
    let w_en := after (PCA9685_EnableOutput hdr (Some c)) w in
    let w_dis := after (PCA9685_DisableOutput hdr (Some c)) w in
    let w_inv := after (PCA9685_SetOutputInversion hdr (Some c) invrt) w in
    (reg w_en mode1 = bf_store (mode2_outne hdr) 0 m /\ reg w_en mode2 = m)
    /\ (reg w_dis mode1 = bf_store (mode2_outne hdr) 3 m /\ reg w_dis mode2 = m)
    /\ (reg w_inv mode1 = bf_store (mode2_invrt hdr) invrt m /\ reg w_inv mode2 = m).
Proof.
  intros hdr c invrt w Hok reg mode1 mode2 m w_en w_dis w_inv.
  subst w_en w_dis w_inv m reg mode1 mode2. cbv beta.
  header_facts Hok.
  rewrite EnableOutput_rmw, DisableOutput_rmw, SetOutputInversion_rmw.
  rewrite !rmw_persistent by assumption.
  repeat split;
    first [ apply device_reg_insert_eq
          | apply device_reg_insert_ne; assumption ].
Qed.

(** ** What a PWM pair looks like on the device *)

Lemma high_byte (v : Z) : 0 <= v < 65536 -> to_u8 (Z.shiftr v 8) = v / 256.
Proof.
  intros Hv. rewrite Z.shiftr_div_pow2 by lia. change (2 ^ 8) with 256.
  apply to_u8_small. split; [apply Z.div_pos; lia | apply Z.div_lt_upper_bound; lia].
Qed.

Lemma merge_bytes (l h : Z) :
  0 <= l < 256 -> 0 <= h < 256 -> to_u16 (Z.lor (Z.shiftl h 8) l) = 256 * h + l.
Proof.
  intros Hl Hh. unfold to_u16.
  rewrite Z.shiftl_mul_pow2 by lia. change (2 ^ 8) with 256.
  rewrite <- Z.add_nocarry_lor by (apply high_low_disjoint; exact Hl).
  rewrite Z.mod_small by lia. lia.
Qed.

(** On the persistent device, SetPWM with a channel index in [0,15] and
    values in [0,4095] writes, in this order, [on mod 256], [on / 256],
    [off mod 256] and [off / 256] to the four consecutive registers of the
    channel, and the two high bytes are below 16: bits 4 to 7 of the ON-high
    and OFF-high registers are always written as 0. *)
Theorem SetPWM_bytes :
  forall (hdr : Header) (c : PCA9685I2CConf_t persistent_bus) (ch on off : Z)
         (w : World persistent_bus),
    header_ok hdr = true ->
    0 <= ch <= 15 -> 0 <= on <= 4095 -> 0 <= off <= 4095 ->
    let base := PCA9685_LED0_ON_L_REG_ADDR hdr + ch * 4 in
    let write := CallWrite (i2cConf c) (i2cAddr c) 1 in
    calls (after (PCA9685_SetPWM hdr (Some c) ch on off) w)
    = calls w ++ [write base 1 (on mod 256); write (base + 1) 1 (on / 256);
                  write (base + 2) 1 (off mod 256); write (base + 3) 1 (off / 256)]
    /\ 0 <= on / 256 < 16
    /\ 0 <= off / 256 < 16.
Proof.
  intros hdr c ch on off w Hok Hch Hon Hoff base write. subst base write.
  unfold after. rewrite SetPWM_persistent by (assumption || lia).
  cbn [snd calls]. rewrite !high_byte by lia.
  repeat split;
    try (apply Z.div_pos; lia); try (apply Z.div_lt_upper_bound; lia).
Qed.

(** On the persistent device, GetPWM with a channel index in [0,15] stores
    [256 * h + l] for the bytes [l] and [h] held by the low and the high
    register of each value: the high byte is not masked to 12 bits, so a
    high register holding 16 or more reads back as a value above 4095. *)
Theorem GetPWM_value :
  forall (hdr : Header) (c : PCA9685I2CConf_t persistent_bus) (ch : Z)
         (onValue offValue : nat) (w : World persistent_bus),
    header_ok hdr = true ->
    0 <= ch <= 15 ->
    onValue <> offValue ->
    let base := PCA9685_LED0_ON_L_REG_ADDR hdr + ch * 4 in
    let reg r := device_reg (bus w) (i2cAddr c) r in
    (forall r, base <= r <= base + 3 -> 0 <= reg r < 256) ->
    let w' := after (PCA9685_GetPWM hdr (Some c) ch (Some onValue) (Some offValue)) w in
    cells w' !! onValue = Some (256 * reg (base + 1) + reg base)
    /\ cells w' !! offValue = Some (256 * reg (base + 3) + reg (base + 2))
    /\ (16 <= reg (base + 1) -> exists v, cells w' !! onValue = Some v /\ 4095 < v).
Proof.
  intros hdr c ch pOn pOff w Hok Hch Hne base reg Hbytes w'.
  subst w'. unfold after. rewrite GetPWM_persistent by assumption.
  cbn [snd cells]. fold base. fold reg.
  assert (H0 := Hbytes base ltac:(lia)).
  assert (H1 := Hbytes (base + 1) ltac:(lia)).
  assert (H2 := Hbytes (base + 2) ltac:(lia)).
  assert (H3 := Hbytes (base + 3) ltac:(lia)).
  rewrite lookup_insert_ne by (intros E; apply Hne; symmetry; exact E).
  rewrite !lookup_insert_eq.
  rewrite !merge_bytes by assumption.
  repeat split.
  intros H16. eexists. split; [reflexivity |].
  clear Hbytes. subst reg. cbv beta in *. lia.
Qed.

(** On the persistent device, SetPWM on a channel changes no register but
    the four of that channel on the device the handle addresses; a GetPWM on
    another channel stores the same pair whether or not the SetPWM was
    run before it. *)
Theorem SetPWM_frame :
  forall (hdr : Header) (c : PCA9685I2CConf_t persistent_bus) (ch on off : Z)
         (w : World persistent_bus),
    header_ok hdr = true ->
    0 <= ch <= 15 -> on <= 4095 -> off <= 4095 ->
    let base := PCA9685_LED0_ON_L_REG_ADDR hdr + ch * 4 in
    let w1 := after (PCA9685_SetPWM hdr (Some c) ch on off) w in
    (forall addr r, addr <> i2cAddr c \/ r < base \/ base + 3 < r ->
                    device_reg (bus w1) addr r = device_reg (bus w) addr r)
    /\ (forall ch' p q, 0 <= ch' <= 15 -> ch' <> ch ->
          cells (after (PCA9685_GetPWM hdr (Some c) ch' (Some p) (Some q)) w1)
          = cells (after (PCA9685_GetPWM hdr (Some c) ch' (Some p) (Some q)) w)).
Proof.
  intros hdr c ch on off w Hok Hch Hon Hoff base w1.
  assert (Hframe : forall addr r, addr <> i2cAddr c \/ r < base \/ base + 3 < r ->
                     device_reg (bus w1) addr r = device_reg (bus w) addr r).
  { intros addr r Hr. subst w1. unfold after.
    rewrite SetPWM_persistent by assumption. cbn [snd bus]. fold base.
    rewrite !device_reg_insert_other; [reflexivity | | | |];
      (destruct Hr as [Ha | Hr]; [left; congruence | right; lia]). }
  split; [exact Hframe |].
  intros ch' p q Hch' Hne. unfold after at 1 2.
  rewrite !GetPWM_persistent by assumption. cbn [snd cells].
  assert (Hcells : cells w1 = cells w).
  { subst w1. unfold after. rewrite SetPWM_persistent by assumption. reflexivity. }
  rewrite Hcells.
  rewrite !Hframe by (right; subst base; lia).
  reflexivity.
Qed.

(** ** Failures while reading a PWM pair *)

(** When the read of the ON-low register fails, or it succeeds and the read
    of the ON-high register fails, GetPWM returns the error code and stores
    nothing: both output cells are as they were before the call. *)
Theorem GetPWM_early_failure :
  forall (T : Transport) (hdr : Header) (c : PCA9685I2CConf_t T) (ch : Z)
         (onValue offValue : nat) (w : World T),
    header_ok hdr = true ->
    0 <= ch <= 15 ->
    let read reg old s :=
      i2cRead T (i2cConf c) (i2cAddr c) 1 (to_u8 (reg + ch * 4)) 1 old s in
    (fst (fst (read (PCA9685_LED0_ON_L_REG_ADDR hdr) 0 (bus w))) = US_I2C_ERROR
     \/ (fst (fst (read (PCA9685_LED0_ON_L_REG_ADDR hdr) 0 (bus w))) = US_I2C_SUCCESS
         /\ fst (fst (read (PCA9685_LED0_ON_H_REG_ADDR hdr) 0
                        (snd (read (PCA9685_LED0_ON_L_REG_ADDR hdr) 0 (bus w)))))
            = US_I2C_ERROR)) ->
    result (PCA9685_GetPWM hdr (Some c) ch (Some onValue) (Some offValue)) w
      = PCA9685LIB_ERROR
    /\ cells (after (PCA9685_GetPWM hdr (Some c) ch (Some onValue) (Some offValue)) w)
       = cells w.
Proof.
  intros T hdr c ch pOn pOff w Hok Hch read H12. subst read. cbv beta in H12.
  destruct (channel_regs hdr ch Hok Hch) as [(E0 & E1 & E2 & E3) (L0 & L1 & L2 & L3)].
  rewrite <- E0 in L0. rewrite <- E1 in L1.
  header_facts Hok.
  unfold result, after, PCA9685_GetPWM.
  replace (PCA9685_MAX_PWM_CHANNELS hdr <? ch) with false
    by (symmetry; apply Z.ltb_ge; lia).
  unfold orfail_read, bind.
  rewrite ReadReg_legal by exact L0. cbn [fst snd pointee].
  destruct H12 as [H1 | [H1 H2]]; rewrite H1.
  - split; reflexivity.
  - rewrite ReadReg_legal by exact L1. cbn [bus calls cells fst snd pointee].
    rewrite H2. split; reflexivity.
Qed.

(** When the two reads of the ALL_LED ON registers succeed with the bytes
    [l] and [h] and then the read of the ALL_LED OFF-low register fails, or
    it succeeds and the read of the OFF-high register fails, GetAllPWM
    returns the error code, the cell behind [onValue] holds the on-value
    just read and the (distinct) cell behind [offValue] is as it was. *)
Theorem GetAllPWM_partial_update :
  forall (T : Transport) (hdr : Header) (c : PCA9685I2CConf_t T)
         (onValue offValue : nat) (w : World T) (l h : Z) (b1 b2 : BusState T),
    all_led_ok hdr = true ->
    onValue <> offValue ->
    let read reg old s := i2cRead T (i2cConf c) (i2cAddr c) 1 reg 1 old s in
    read (PCA9685_ALL_LED_ON_L_REG_ADDR hdr) 0 (bus w) = ((US_I2C_SUCCESS, l), b1) ->
    read (PCA9685_ALL_LED_ON_H_REG_ADDR hdr) 0 b1 = ((US_I2C_SUCCESS, h), b2) ->
    (fst (fst (read (PCA9685_ALL_LED_OFF_L_REG_ADDR hdr) l b2)) = US_I2C_ERROR
     \/ (fst (fst (read (PCA9685_ALL_LED_OFF_L_REG_ADDR hdr) l b2)) = US_I2C_SUCCESS
         /\ fst (fst (read (PCA9685_ALL_LED_OFF_H_REG_ADDR hdr) h
                        (snd (read (PCA9685_ALL_LED_OFF_L_REG_ADDR hdr) l b2))))
            = US_I2C_ERROR)) ->
    let w' := after (PCA9685_GetAllPWM hdr (Some c) (Some onValue) (Some offValue)) w in
    result (PCA9685_GetAllPWM hdr (Some c) (Some onValue) (Some offValue)) w
      = PCA9685LIB_ERROR
    /\ cells w' !! onValue = Some (to_u16 (Z.lor (Z.shiftl h 8) l))
    /\ cells w' !! offValue = cells w !! offValue.
Proof.
  intros T hdr c pOn pOff w l h b1 b2 Hok Hne read H1 H2 H34 w'.
  subst w' read. cbv beta in H1, H2, H34.
  all_led_facts Hok.
  unfold result, after, PCA9685_GetAllPWM, orfail_read, bind.
  rewrite ReadReg_legal by assumption. rewrite H1. cbn [fst snd pointee].
  rewrite ReadReg_legal by assumption. cbn [bus calls cells]. rewrite H2.
  cbn [fst snd pointee].
  unfold store16. cbn [bus calls cells].
  rewrite ReadReg_legal by assumption. cbn [bus calls cells fst snd pointee].
  destruct H34 as [H3 | [H3 H4]]; rewrite H3.
  - unfold ret. cbn [fst snd cells].
    rewrite lookup_insert_eq, lookup_insert_ne by exact Hne. auto.
  - rewrite ReadReg_legal by assumption. cbn [bus calls cells fst snd pointee].
    rewrite H4. unfold ret. cbn [fst snd cells].
    rewrite lookup_insert_eq, lookup_insert_ne by exact Hne. auto.
Qed.

(** ** Opening the device *)

(** Init issues exactly one call, the opening of the bus. When the
    transport reports success it returns the success code and the handle
    then carries the transport's handle and the given device address, so
    that a later register write goes through that handle to that address;
    when the transport reports a failure it returns the error code and the
    device address stored in the handle is not changed. *)
Theorem Init_stores_address :
  forall (T : Transport) (hdr : Header) (conf0 : PCA9685I2CConf_t T)
         (a dev reg data : Z) (w : World T) (st : I2cStatus) (h : I2cConf T)
         (b : BusState T),
    i2cInit T dev (i2cConf conf0) (bus w) = ((st, h), b) ->
    legal_reg hdr reg = true ->
    let r0 := PCA9685_Init (Some conf0) a dev w in
    snd r0 = {| bus := b; calls := calls w ++ [CallInit dev]; cells := cells w |}
    /\ (st = US_I2C_SUCCESS ->
        fst r0 = (PCA9685LIB_SUCCESS, Some {| i2cConf := h; i2cAddr := a |})
        /\ calls (after (PCA9685WriteReg hdr (snd (fst r0)) reg data) (snd r0))
           = calls w ++ [CallInit dev; CallWrite h a 1 reg 1 data])
    /\ (st = US_I2C_ERROR ->
        fst r0 = (PCA9685LIB_ERROR, Some {| i2cConf := h; i2cAddr := i2cAddr conf0 |})).
Proof.
  intros T hdr conf0 a dev reg data w st h b Hinit Hl r0.
  assert (Hr0 : r0 = ((match st with
                       | US_I2C_SUCCESS => PCA9685LIB_SUCCESS
                       | US_I2C_ERROR => PCA9685LIB_ERROR
                       end,
                       Some {| i2cConf := h;
                               i2cAddr := match st with
                                          | US_I2C_SUCCESS => a
                                          | US_I2C_ERROR => i2cAddr conf0
                                          end |}),
                      {| bus := b; calls := calls w ++ [CallInit dev];
                         cells := cells w |})).
  { subst r0. unfold PCA9685_Init, bind, bus_init. rewrite Hinit.
    destruct st; reflexivity. }
  rewrite Hr0. cbn [fst snd]. repeat split.
  - subst st. reflexivity.
  - subst st. unfold after. rewrite WriteReg_legal by exact Hl.
    cbn [snd calls i2cConf i2cAddr]. rewrite <- app_assoc. reflexivity.
  - intros ->. reflexivity.
Qed.

(** ** The further properties at concrete inputs *)

(** Channel 16 on the chip's register map with the channel guard moved up
    to 16. *)
Lemma channel_16_rejected_by_register_guard_witness :
  let hdr := with_max_channels 16 pca9685_header in
  PCA9685_SetPWM hdr (Some handle_40) 16 0 2048 (world_of ∅)
  = (PCA9685LIB_ERROR, world_of ∅)
  /\ PCA9685_GetPWM hdr (Some handle_40) 16 (Some 0%nat) (Some 1%nat) (world_of ∅)
     = (PCA9685LIB_ERROR, world_of ∅).
Proof.
  apply channel_16_rejected_by_register_guard; cbn; lia.
Defined.

(** Channel 3, pair (100, 200), on the persistent device. *)
Lemma SetPWM_success_iff_witness :
  result (PCA9685_SetPWM pca9685_header (Some handle_40) 3 100 200) (world_of ∅)
  = PCA9685LIB_SUCCESS
  <-> 3 <= 15 /\ 100 <= 4095 /\ 200 <= 4095
      /\ is_Some (transfer_all (T := persistent_bus) 0 0x40
                    (pwm_writes pca9685_header 3 100 200) ∅).
Proof.
  apply (proj1 (SetPWM_success_iff persistent_bus pca9685_header handle_40 3 100 200
                  (world_of ∅) eq_refl ltac:(lia))).
Defined.

(** Pair (100, 200) on the persistent device. *)
Lemma SetAllPWM_success_iff_witness :
  result (PCA9685_SetAllPWM pca9685_header (Some handle_40) 100 200) (world_of ∅)
  = PCA9685LIB_SUCCESS
  <-> 100 <= 4095 /\ 200 <= 4095
      /\ is_Some (transfer_all (T := persistent_bus) 0 0x40
                    (all_pwm_writes pca9685_header 100 200) ∅).
Proof.
  apply (proj1 (SetAllPWM_success_iff persistent_bus pca9685_header handle_40 100 200
                  (world_of ∅) eq_refl)).
Defined.

(** Pair (0x123, 0x456) on a bus that carries one transfer: the second
    write, of 0x01 to register 0xFB, fails. *)
Lemma SetAllPWM_aborts_without_rollback_witness :
  PCA9685_SetAllPWM pca9685_header (Some faulty_handle_40) 0x123 0x456 (faulty_world_of ∅ 1)
  = (PCA9685LIB_ERROR,
     Build_World faulty_bus
       (<[(0x40, 0xFA) := 0x23]> ∅, 0%nat)
       [CallWrite 0 0x40 1 0xFA 1 0x23; CallWrite 0 0x40 1 0xFB 1 0x01]
       ∅).
Proof.
  apply (SetAllPWM_aborts_without_rollback faulty_bus pca9685_header faulty_handle_40
           0x123 0x456 1 (0xFB, 0x01) (faulty_world_of ∅ 1)
           (<[(0x40, 0xFA) := 0x23]> ∅, 0%nat) (<[(0x40, 0xFA) := 0x23]> ∅, 0%nat));
    try reflexivity; lia.
Defined.

(** Pair (4095, 0). *)
Lemma SetAllPWM_GetAllPWM_roundtrip_witness :
  let w1 := after (PCA9685_SetAllPWM pca9685_header (Some handle_40) 4095 0) (world_of ∅) in
  let w2 := after (PCA9685_GetAllPWM pca9685_header (Some handle_40)
                     (Some 0%nat) (Some 1%nat)) w1 in
  result (PCA9685_SetAllPWM pca9685_header (Some handle_40) 4095 0) (world_of ∅)
  = PCA9685LIB_SUCCESS
  /\ result (PCA9685_GetAllPWM pca9685_header (Some handle_40)
               (Some 0%nat) (Some 1%nat)) w1
     = PCA9685LIB_SUCCESS
  /\ cells w2 !! 0%nat = Some 4095
  /\ cells w2 !! 1%nat = Some 0.
Proof.
  apply SetAllPWM_GetAllPWM_roundtrip; [reflexivity | lia | lia | lia].
Defined.

(** The byte 1: read back as 1 from the mode registers, as 3 from the
    prescaler. *)
Lemma mode_and_prescaler_roundtrip_witness :
  result (PCA9685_GetMode1Reg _ pca9685_header (Some handle_40) (Some 0))
         (after (PCA9685_SetMode1Reg _ pca9685_header (Some handle_40) 1) (world_of ∅))
  = (PCA9685LIB_SUCCESS, Some 1)
  /\ result (PCA9685_GetMode2Reg _ pca9685_header (Some handle_40) (Some 0))
            (after (PCA9685_SetMode2Reg _ pca9685_header (Some handle_40) 1) (world_of ∅))
     = (PCA9685LIB_SUCCESS, Some 1)
  /\ result (PCA9685_GetPrescaler _ pca9685_header (Some handle_40) (Some 0))
            (after (PCA9685_SetPrescaler pca9685_header (Some handle_40) 1) (world_of ∅))
     = (PCA9685LIB_SUCCESS, Some 3).
Proof.
  apply (mode_and_prescaler_roundtrip pca9685_header handle_40 1 0 (world_of ∅));
    [reflexivity | lia].
Defined.

(** Mode1 = 0x21: Sleep and then WakeUp leave 0x21. *)
Lemma Sleep_WakeUp_compose_witness :
  let w := world_of (<[(0x40, 0x00) := 0x21]> ∅) in
  let w1 := after (PCA9685_Sleep pca9685_header (Some handle_40)) w in
  let w2 := after (PCA9685_WakeUp pca9685_header (Some handle_40)) w1 in
  device_reg (bus w2) 0x40 0x00 = device_reg (bus w) 0x40 0x00.
Proof.
  intros w w1 w2.
  destruct (Sleep_WakeUp_compose pca9685_header handle_40 w eq_refl)
    as (_ & _ & Hback & _).
  apply Hback. reflexivity.
Defined.

(** Mode2 = 0x04 and SetOutputInversion(1): Mode1 receives 0x14. *)
Lemma output_control_persistent_witness :
  let w := world_of (<[(0x40, 0x01) := 0x04]> ∅) in
  let w_inv := after (PCA9685_SetOutputInversion pca9685_header (Some handle_40) 1) w in
  device_reg (bus w_inv) 0x40 0x00
  = bf_store (mode2_invrt pca9685_header) 1 (device_reg (bus w) 0x40 0x01)
  /\ device_reg (bus w_inv) 0x40 0x01 = device_reg (bus w) 0x40 0x01.
Proof.
  intros w w_inv.
  destruct (output_control_persistent pca9685_header handle_40 1 w eq_refl)
    as (_ & _ & Hinv).
  exact Hinv.
Defined.

(** Channel 2, pair (0x123, 0xFFF). *)
Lemma SetPWM_bytes_witness :
  calls (after (PCA9685_SetPWM pca9685_header (Some handle_40) 2 0x123 0xFFF) (world_of ∅))
  = [CallWrite 0 0x40 1 0x0E 1 0x23; CallWrite 0 0x40 1 0x0F 1 0x01;
     CallWrite 0 0x40 1 0x10 1 0xFF; CallWrite 0 0x40 1 0x11 1 0x0F]
  /\ 0 <= 0x123 / 256 < 16
  /\ 0 <= 0xFFF / 256 < 16.
Proof.
  apply (SetPWM_bytes pca9685_header handle_40 2 0x123 0xFFF (world_of ∅));
    [reflexivity | lia | lia | lia].
Defined.

(** Channel 0 with the ON-high register holding 0x10: the on-value read is
    4096. *)
Lemma GetPWM_value_witness :
  let w := world_of (<[(0x40, 0x07) := 0x10]> ∅) in
  let w' := after (PCA9685_GetPWM pca9685_header (Some handle_40) 0
                     (Some 0%nat) (Some 1%nat)) w in
  cells w' !! 0%nat = Some (256 * device_reg (bus w) 0x40 0x07 + device_reg (bus w) 0x40 0x06).
Proof.
  intros w w'.
  assert (Hbytes : forall r, 6 <= r <= 9 -> 0 <= device_reg (bus w) 0x40 r < 256).
  { intros r Hr.
    assert (Hcases : r = 6 \/ r = 7 \/ r = 8 \/ r = 9) by lia.
    destruct Hcases as [-> | [-> | [-> | ->]]]; vm_compute; split; congruence. }
  destruct (GetPWM_value pca9685_header handle_40 0 0%nat 1%nat w
              eq_refl ltac:(lia) ltac:(lia) Hbytes) as (Hon & _ & _).
  exact Hon.
Defined.

(** SetPWM on channel 1 and GetPWM on channel 0. *)
Lemma SetPWM_frame_witness :
  let w := world_of (<[(0x40, 0x06) := 0x34]> ∅) in
  let w1 := after (PCA9685_SetPWM pca9685_header (Some handle_40) 1 100 200) w in
  cells (after (PCA9685_GetPWM pca9685_header (Some handle_40) 0
                  (Some 0%nat) (Some 1%nat)) w1)
  = cells (after (PCA9685_GetPWM pca9685_header (Some handle_40) 0
                    (Some 0%nat) (Some 1%nat)) w).
Proof.
  intros w w1.
  destruct (SetPWM_frame pca9685_header handle_40 1 100 200 w
              eq_refl ltac:(lia) ltac:(lia) ltac:(lia)) as (_ & Hother).
  apply Hother; lia.
Defined.

(** Channel 0 on a bus that carries no transfer. *)
Lemma GetPWM_early_failure_witness :
  let w := faulty_world_of ∅ 0 in
  result (PCA9685_GetPWM pca9685_header (Some faulty_handle_40) 0
            (Some 0%nat) (Some 1%nat)) w
  = PCA9685LIB_ERROR
  /\ cells (after (PCA9685_GetPWM pca9685_header (Some faulty_handle_40) 0
                     (Some 0%nat) (Some 1%nat)) w)
     = cells w.
Proof.
  apply (GetPWM_early_failure faulty_bus pca9685_header faulty_handle_40 0
           0%nat 1%nat (faulty_world_of ∅ 0));
    [reflexivity | lia | left; reflexivity].
Defined.

(** The ALL_LED group holding the on-value 0x234, on a bus that carries two
    transfers. *)
Lemma GetAllPWM_partial_update_witness :
  let mem : gmap (Z * Z) Z := <[(0x40, 0xFA) := 0x34]> (<[(0x40, 0xFB) := 0x02]> ∅) in
  let w := faulty_world_of mem 2 in
  let w' := after (PCA9685_GetAllPWM pca9685_header (Some faulty_handle_40)
                     (Some 0%nat) (Some 1%nat)) w in
  result (PCA9685_GetAllPWM pca9685_header (Some faulty_handle_40)
            (Some 0%nat) (Some 1%nat)) w
  = PCA9685LIB_ERROR
  /\ cells w' !! 0%nat = Some 0x234
  /\ cells w' !! 1%nat = cells w !! 1%nat.
Proof.
  intros mem w.
  apply (GetAllPWM_partial_update faulty_bus pca9685_header faulty_handle_40
           0%nat 1%nat w 0x34 0x02 (mem, 1%nat) (mem, 0%nat));
    [reflexivity | lia | reflexivity | reflexivity | left; reflexivity].
Defined.

(** Init with address 0x41 on bus 2 of the persistent transport, over a
    handle that held address 0x40, then a write of 5 to register 0. *)
Lemma Init_stores_address_witness :
  let r0 := PCA9685_Init (Some handle_40) 0x41 2 (world_of ∅) in
  fst r0 = (PCA9685LIB_SUCCESS, Some (Build_PCA9685I2CConf_t persistent_bus 2 0x41))
  /\ calls (after (PCA9685WriteReg pca9685_header (snd (fst r0)) 0 5) (snd r0))
     = calls (world_of ∅) ++ [CallInit 2; CallWrite 2 0x41 1 0 1 5].
Proof.
  intros r0.
  destruct (Init_stores_address persistent_bus pca9685_header handle_40 0x41 2 0 5
              (world_of ∅) US_I2C_SUCCESS 2 ∅ eq_refl eq_refl) as (_ & Hok & _).
  exact (Hok eq_refl).
Defined.
